(** * Extractors of the yt-dlp fork: iPrima, VRT, VideoKen, Mojevideo

    A shallow embedding of the format-resolution and authentication code
    of [yt_dlp/extractor/iprima.py], [vrt.py], [videoken.py] and
    [mojevideo.py].  Network responses are inputs; the requests an
    extractor issues are recorded in a trace, and Python exceptions are the
    error branch of a small state/error monad. *)

From Stdlib Require Import String Ascii List Bool Arith ZArith Lia.
Import ListNotations.
Open Scope string_scope.

(** ** Python string operations *)
Module Py.

(** [s.split(c)] for a one-character separator: every occurrence splits,
    empty pieces are kept, and [''.split(c)] is [['']]. *)
Fixpoint split (c : ascii) (s : string) : list string :=
  match s with
  | EmptyString => [""]
  | String x r =>
      let parts := split c r in
      if Ascii.eqb x c then "" :: parts
      else match parts with
           | p :: ps => String x p :: ps
           | [] => [String x ""]
           end
  end.

(** [c in s] *)
Fixpoint contains (c : ascii) (s : string) : bool :=
  match s with
  | EmptyString => false
  | String x r => Ascii.eqb x c || contains c r
  end.

(** [str.upper] on ASCII text. *)
Definition upper_char (a : ascii) : ascii :=
  let n := nat_of_ascii a in
  if ((97 <=? n) && (n <=? 122))%nat then ascii_of_nat (n - 32) else a.

Fixpoint upper (s : string) : string :=
  match s with
  | EmptyString => EmptyString
  | String a r => String (upper_char a) (upper r)
  end.

(** [str.isalnum] on ASCII text ([False] for the empty string). *)
Definition alnum_char (a : ascii) : bool :=
  let n := nat_of_ascii a in
  (((48 <=? n) && (n <=? 57)) || ((65 <=? n) && (n <=? 90))
  || ((97 <=? n) && (n <=? 122)))%nat.

Fixpoint all_alnum (s : string) : bool :=
  match s with
  | EmptyString => true
  | String a r => alnum_char a && all_alnum r
  end.

Definition isalnum (s : string) : bool :=
  negb (String.eqb s "") && all_alnum s.

(** Python truthiness of an optional string ([None] and [''] are false). *)
Definition truthy (o : option string) : bool :=
  match o with
  | Some s => negb (String.eqb s "")
  | None => false
  end.

(** [lst[i]], raising [IndexError] out of range. *)
Definition index {A} (l : list A) (i : nat) : option A := nth_error l i.

(** [dict(pairs)] where every element must have length 2; [None] is the
    [ValueError] raised otherwise.  A later key overwrites an earlier one,
    which [lookup] below reflects by searching from the end. *)
Fixpoint dict_of_pairs (l : list (list string)) : option (list (string * string)) :=
  match l with
  | [] => Some []
  | [k; v] :: r =>
      match dict_of_pairs r with
      | Some d => Some ((k, v) :: d)
      | None => None
      end
  | _ :: _ => None
  end.

Fixpoint lookup {V} (k : string) (d : list (string * V)) : option V :=
  match d with
  | [] => None
  | (k', v) :: r =>
      match lookup k r with
      | Some w => Some w
      | None => if String.eqb k k' then Some v else None
      end
  end.

End Py.

(** ** Exceptions and the extraction monad *)

(** The exceptions an extractor run can end with.  [ExtractorError msg
    expected] is yt-dlp's [ExtractorError]; [expected = true] marks a
    user-facing error.  [LoginRequired] and [GeoRestricted] are what
    [raise_login_required] and [raise_geo_restricted] raise. *)
Inductive exn : Type :=
| ExtractorError (msg : string) (expected : bool)
| LoginRequired (msg : string)
| GeoRestricted (countries : list string)
| KeyError (key : string)
| ValueError
| AttributeError.

(** A network request issued by an extractor. *)
Inductive request : Type :=
| HttpGet (url : string)
| HttpPost (url : string).

(** State (the trace of requests) and errors (a Python exception). *)
Definition M (A : Type) : Type := list request -> (exn + A) * list request.

Definition ret {A} (a : A) : M A := fun tr => (inr a, tr).

Definition bind {A B} (m : M A) (k : A -> M B) : M B :=
  fun tr => match m tr with
            | (inl e, tr') => (inl e, tr')
            | (inr a, tr') => k a tr'
            end.

Definition throw {A} (e : exn) : M A := fun tr => (inl e, tr).

(** Issue a request; its response is part of the site description the
    caller passes in, so only the request is recorded. *)
Definition send (r : request) : M unit := fun tr => (inr tt, (tr ++ [r])%list).

Definition lift_option {A} (e : exn) (o : option A) : M A :=
  match o with Some a => ret a | None => throw e end.

Notation "x <- m ;; k" := (bind m (fun x => k))
  (at level 61, m at next level, right associativity).
Notation "m ;;; k" := (bind m (fun _ => k))
  (at level 61, right associativity).

(** Modelled from the spec: [InfoExtractor.raise_login_required] (in
    [common.py], not among the sources): it fails with LOGIN_REQUIRED. *)
Definition raise_login_required {A} (msg : string) : M A :=
  throw (LoginRequired msg).

(** Modelled from the spec: [InfoExtractor.raise_geo_restricted] (in
    [common.py]): it fails with GEO_DENIED naming the country set. *)
Definition raise_geo_restricted {A} (countries : list string) : M A :=
  throw (GeoRestricted countries).

(** ** Data shared by the extractors *)

(** A format variant as the extractors build it ([format_id], [url] and
    the optional [language] key of the format dict). *)
Record fmt : Type := mk_fmt {
  format_id : string;
  f_url : string;
  language : option string
}.

(** [x == s] for an optional string. *)
Definition opt_is (o : option string) (s : string) : bool :=
  match o with Some x => String.eqb x s | None => false end.

Definition is_none {A} (o : option A) : bool :=
  match o with None => true | Some _ => false end.

(** Modelled from the framework: [utils.determine_ext] (not among the
    sources).  [guess] is the text after the last ['.'] of the URL with its
    query cut off; it is returned when [re.match(r'^[A-Za-z0-9]+$', guess)]
    holds, else [guess.rstrip('/')] when that is one of
    [KNOWN_EXTENSIONS], else ['unknown_video']. *)
Definition KNOWN_EXTENSIONS : list string :=
  [ (* MEDIA_EXTENSIONS.video, then common_video *)
    "3g2"; "3gp"; "f4v"; "mk3d"; "divx"; "mpg"; "ogv"; "m4v"; "wmv";
    "avi"; "flv"; "mkv"; "mov"; "mp4"; "webm";
    (* MEDIA_EXTENSIONS.audio, then common_audio *)
    "aac"; "ape"; "asf"; "f4a"; "f4b"; "m4b"; "m4p"; "m4r"; "oga"; "ogx"; "spx";
    "vorbis"; "wma"; "weba";
    "aiff"; "alac"; "flac"; "m4a"; "mka"; "mp3"; "ogg"; "opus"; "wav";
    (* MEDIA_EXTENSIONS.manifests *)
    "f4f"; "f4m"; "m3u8"; "smil"; "mpd"].

(** [[A-Za-z0-9]*$] on the rest of the text: [$] also matches before a
    final newline. *)
Fixpoint alnum_to_end (s : string) : bool :=
  match s with
  | EmptyString => true
  | String a r => (Py.alnum_char a && alnum_to_end r) || (Ascii.eqb a "010"%char && String.eqb r "")
  end.

(** [re.match(r'^[A-Za-z0-9]+$', s)] *)
Definition re_alnum (s : string) : bool :=
  match s with
  | EmptyString => false
  | String a r => Py.alnum_char a && alnum_to_end r
  end.

(** [s.rstrip('/')] *)
Fixpoint rstrip_slash (s : string) : string :=
  match s with
  | EmptyString => EmptyString
  | String a r =>
      let r' := rstrip_slash r in
      if Ascii.eqb a "/"%char && String.eqb r' "" then "" else String a r'
  end.

Definition determine_ext (url : option string) : string :=
  match url with
  | None => "unknown_video"
  | Some u =>
      if negb (Py.contains "."%char u) then "unknown_video"
      else
        let path := hd "" (Py.split "?"%char u) in
        let guess := last (Py.split "."%char path) "" in
        if re_alnum guess then guess
        else if existsb (String.eqb (rstrip_slash guess)) KNOWN_EXTENSIONS
        then rstrip_slash guess
        else "unknown_video"
  end.

(** ** iprima.py *)
Module IPrima.

Definition _LOGIN_URL := "https://auth.iprima.cz/oauth2/login".
Definition _TOKEN_URL := "https://auth.iprima.cz/oauth2/token".
Definition _LOGIN_REQUIRED := true.

(** One entry of [streamInfos]. *)
Record stream_info : Type := mk_stream_info {
  si_type : option string;
  si_url : option string
}.

(** The body of the [/play] API answer. *)
Record play_json : Type := mk_play_json {
  errorCode : option string;
  streamInfos : option (list stream_info)
}.

(** What the site answers during one run: the configured credentials
    ([_get_login_info]), the URL the login POST is redirected to, the
    [access_token] of the token answer for a given code, what the page
    regexes find, whether a JSON-LD block of the page gives a non-empty
    info dict ([_search_json_ld]), and the [/play] answer for a product
    id. *)
Record site : Type := mk_site {
  login_info : option string * option string;
  login_redirect_url : string;
  token_access_token : string -> option string;
  page_title : option string;
  page_product_id : option string;
  page_json_ld : bool;
  api_play : string -> play_json
}.

Record descriptor : Type := mk_descriptor {
  d_id : string;
  d_title : option string;
  d_formats : list fmt
}.

(** [params = dict(map(lambda x: x.split('='),
       (str(login_handle.geturl())).split('?')[1].split('&')))]
    [code = params['code']], under [except (IndexError)]. *)
Definition parse_code (redirect : string) : M string :=
  match Py.index (Py.split "?"%char redirect) 1 with
  | None => throw (ExtractorError "Login failed (invalid credentials?)" true)
  | Some query =>
      match Py.dict_of_pairs (map (Py.split "="%char) (Py.split "&"%char query)) with
      | None => throw ValueError
      | Some params => lift_option (KeyError "code") (Py.lookup "code" params)
      end
  end.

(** [IPrimaIE._login]; returns the access token it stores. *)
Definition _login (s : site) : M string :=
  let '(username, password) := login_info s in
  (if (is_none username || is_none password) && _LOGIN_REQUIRED
   then raise_login_required "Login is required to access any iPrima content"
   else ret tt) ;;;
  send (HttpGet _LOGIN_URL) ;;;
  send (HttpPost _LOGIN_URL) ;;;
  code <- parse_code (login_redirect_url s) ;;
  send (HttpPost _TOKEN_URL) ;;;
  match token_access_token s code with
  | None => throw (ExtractorError "Getting token failed" true)
  | Some token => ret token
  end.

(** [IPrimaIE._raise_access_error] *)
Definition _raise_access_error (error_code : option string) : M unit :=
  if opt_is error_code "PLAY_GEOIP_DENIED" then raise_geo_restricted ["CZ"]
  else if negb (is_none error_code)
  then throw (ExtractorError "Access to stream infos forbidden" true)
  else ret tt.

Definition play_url (video_id : string) : string :=
  "https://api.play-backend.iprima.cz/api/v1//products/id-" ++ video_id ++ "/play".

Section Extract.

(** The manifest expanders of the framework ([fatal=False]: an empty list
    when the manifest cannot be read) and the format sorter. *)
Variable _extract_m3u8_formats : option string -> list fmt.
Variable _extract_mpd_formats : option string -> list fmt.
Variable _sort_formats : list fmt -> list fmt.

(** The body of the [for manifest in stream_infos] loop. *)
Definition manifest_formats (manifest : stream_info) : list fmt :=
  let manifest_type := si_type manifest in
  let manifest_url := si_url manifest in
  let ext := determine_ext manifest_url in
  if opt_is manifest_type "HLS" || String.eqb ext "m3u8"
  then _extract_m3u8_formats manifest_url
  else if opt_is manifest_type "DASH" || String.eqb ext "mpd"
  then _extract_mpd_formats manifest_url
  else [].

(** [IPrimaIE._real_extract] *)
Definition _real_extract (s : site) (url : string) : M descriptor :=
  send (HttpGet url) ;;;
  video_id <- lift_option (ExtractorError "Unable to extract real id" false)
                          (page_product_id s) ;;
  send (HttpGet (play_url video_id)) ;;;
  let metadata := api_play s video_id in
  _raise_access_error (errorCode metadata) ;;;
  stream_infos <- lift_option (ExtractorError "Reading stream infos failed" true)
                              (streamInfos metadata) ;;
  let formats := _sort_formats (flat_map manifest_formats stream_infos) in
  (* [self._search_json_ld(webpage, video_id) or {}], fatal by default *)
  (if page_json_ld s then ret tt
   else throw (ExtractorError "Unable to extract JSON-LD" false)) ;;;
  ret (mk_descriptor video_id (page_title s) formats).

(** Modelled from the framework: [InfoExtractor.extract] (in [common.py])
    runs [_real_initialize] (the login), then [_real_extract], and turns a
    [KeyError] escaping them into the generic
    [ExtractorError('An extractor error has occurred.')], which is not
    expected (not user-facing). *)
Definition wrap_key_error {A} (m : M A) : M A :=
  fun tr => match m tr with
            | (inl (KeyError _), tr') =>
                (inl (ExtractorError "An extractor error has occurred." false), tr')
            | r => r
            end.

Definition extract (s : site) (url : string) : M descriptor :=
  wrap_key_error (_login s ;;; _real_extract s url).

(** [if lang: for f in new_formats: if not f.get('language'):
    f['language'] = lang] *)
Definition set_language (lang : option string) (new_formats : list fmt) : list fmt :=
  if Py.truthy lang then
    map (fun f => if Py.truthy (language f) then f
                  else mk_fmt (format_id f) (f_url f) lang) new_formats
  else new_formats.

(** [IPrimaCNNIE._real_extract.extract_formats]: appends to [formats]. *)
Definition cnn_extract_formats (formats : list fmt) (format_url : string)
    (format_key lang : option string) : list fmt :=
  let ext := determine_ext (Some format_url) in
  if opt_is format_key "hls" || String.eqb ext "m3u8" then
    formats ++ set_language lang (_extract_m3u8_formats (Some format_url))
  else if opt_is format_key "dash" || String.eqb ext "mpd" then
    formats
  else formats ++ set_language lang [].

End Extract.

(** The error [_raise_access_error] raises for a non-null code. *)
Definition access_error (code : string) : exn :=
  if String.eqb code "PLAY_GEOIP_DENIED" then GeoRestricted ["CZ"]
  else ExtractorError "Access to stream infos forbidden" true.

(** A site with working credentials and the given login redirect. *)
Definition site_with_redirect (redirect : string) : site :=
  mk_site (Some "user", Some "secret") redirect (fun _ => Some "tok") None (Some "p1") true
          (fun _ => mk_play_json None (Some [])).

End IPrima.

(** ** vrt.py *)
Module VRT.

(** One entry of [targetUrls] and of [subtitleUrls] in the media API
    answer; a missing key and a JSON [null] are both [None]. *)
Record target : Type := mk_target {
  t_type : option string;
  t_url : option string
}.

Record subtitle_ref : Type := mk_subtitle_ref {
  s_url : option string;
  s_type : option string;
  s_language : option string
}.

Record api_data : Type := mk_api_data {
  drm : bool;
  targetUrls : list target;
  subtitleUrls : list subtitle_ref
}.

(** A subtitle track [{'url': ...}] and the subtitles dict, an
    insertion-ordered map from language to tracks. *)
Record track : Type := mk_track { track_url : string }.

Definition subtitles := list (string * list track).

(** [d.get(k)] *)
Fixpoint get (d : subtitles) (k : string) : option (list track) :=
  match d with
  | [] => None
  | (k', v) :: r => if String.eqb k k' then Some v else get r k
  end.

Definition get_default (d : subtitles) (k : string) : list track :=
  match get d k with Some v => v | None => [] end.

(** [d[k] = v]: an existing key keeps its place, a new key goes last. *)
Fixpoint set (d : subtitles) (k : string) (v : list track) : subtitles :=
  match d with
  | [] => [(k, v)]
  | (k', v') :: r => if String.eqb k k' then (k', v) :: r else (k', v') :: set r k v
  end.

(** [d.setdefault(k, []).append(x)] *)
Definition setdefault_append (d : subtitles) (k : string) (x : track) : subtitles :=
  set d k (get_default d k ++ [x]).

(** Modelled from the spec: [InfoExtractor._merge_subtitles] (in
    [common.py]): merge language by language, dropping an incoming track
    whose URL the language already has. *)
Definition merge_subtitle_items (l1 l2 : list track) : list track :=
  l1 ++ filter (fun t => negb (existsb (fun t1 => String.eqb (track_url t1) (track_url t)) l1)) l2.

Definition _merge_subtitles (d target : subtitles) : subtitles :=
  fold_left (fun acc '(lang, subs) => set acc lang (merge_subtitle_items (get_default acc lang) subs))
            d target.

Section Classifier.

(** [utils.url_or_none] and the manifest expanders of the framework,
    called with [fatal=False] (url, video id, format id prefix). *)
Variable url_or_none : string -> option string.
Variable _extract_m3u8_formats_and_subtitles : string -> string -> string -> list fmt * subtitles.
Variable _extract_f4m_formats : string -> string -> string -> list fmt.
Variable _extract_mpd_formats_and_subtitles : string -> string -> string -> list fmt * subtitles.
Variable _extract_ism_formats_and_subtitles : string -> string -> string -> list fmt * subtitles.

(** The filter [lambda _, v: url_or_none(v['url']) and v['type']]. *)
Definition target_selected (v : target) : bool :=
  match t_url v, t_type v with
  | Some u, Some ty => Py.truthy (url_or_none u) && Py.truthy (Some ty)
  | _, _ => false
  end.

(** The filter [lambda _, v: v['url'] and v['type'] == 'CLOSED']. *)
Definition subtitle_selected (v : subtitle_ref) : bool :=
  Py.truthy (s_url v) && opt_is (s_type v) "CLOSED".

(** What one selected target adds: the body of the [for target in ...]
    loop, on [format_type = target['type'].upper()] and
    [format_url = target['url']]. *)
Definition target_formats (video_id format_type format_url : string) : list fmt * subtitles :=
  if String.eqb format_type "HLS" || String.eqb format_type "HLS_AES" then
    _extract_m3u8_formats_and_subtitles format_url video_id format_type
  else if String.eqb format_type "HDS" then
    (_extract_f4m_formats format_url video_id format_type, [])
  else if String.eqb format_type "MPEG_DASH" then
    _extract_mpd_formats_and_subtitles format_url video_id format_type
  else if String.eqb format_type "HSS" then
    _extract_ism_formats_and_subtitles format_url video_id "mss"
  else ([mk_fmt format_type format_url None], []).

(** [target['type'].upper()] and [target['url']] *)
Definition format_type_of (target : target) : string :=
  Py.upper (match t_type target with Some t => t | None => "" end).

Definition format_url_of (target : target) : string :=
  match t_url target with Some u => u | None => "" end.

Definition target_step (video_id : string) (acc : list fmt * subtitles) (target : target)
    : list fmt * subtitles :=
  let '(formats, subs) := acc in
  let '(fmts, s) := target_formats video_id (format_type_of target) (format_url_of target) in
  ((formats ++ fmts)%list, _merge_subtitles s subs).

(** The first loop: formats and the subtitles found while expanding. *)
Definition expand_targets (data : api_data) (video_id : string) : list fmt * subtitles :=
  fold_left (target_step video_id) (filter target_selected (targetUrls data)) ([], []).

(** The second loop: explicitly listed subtitles. *)
Definition add_listed_subtitles (data : api_data) (subs : subtitles) : subtitles :=
  fold_left (fun acc sub =>
               setdefault_append acc "nl" (mk_track (match s_url sub with Some u => u | None => "" end)))
            (filter subtitle_selected (subtitleUrls data)) subs.

(** The two loops of [VRTBaseIE._extract_formats_and_subtitles], which
    run once the DRM check has passed. *)
Definition formats_and_subtitles (data : api_data) (video_id : string)
    : list fmt * subtitles :=
  let '(formats, subs) := expand_targets data video_id in
  (formats, add_listed_subtitles data subs).

(** Modelled from the framework: [InfoExtractor.report_drm] (in
    [common.py]) calls [raise_no_formats('This video is DRM protected',
    expected=True)], which raises that [ExtractorError] unless the
    [ignore_no_formats_error] option (or [wait_for_video]) is set, when it
    only warns. *)
Definition report_drm (ignore_no_formats_error : bool) : exn + unit :=
  if ignore_no_formats_error then inr tt
  else inl (ExtractorError "This video is DRM protected" true).

(** [VRTBaseIE._extract_formats_and_subtitles]: [if traverse_obj(data,
    'drm'): self.report_drm(video_id)], then the two loops. *)
Definition _extract_formats_and_subtitles (ignore_no_formats_error : bool) (data : api_data)
    (video_id : string) : exn + (list fmt * subtitles) :=
  match (if drm data then report_drm ignore_no_formats_error else inr tt) with
  | inl e => inl e
  | inr _ => inr (formats_and_subtitles data video_id)
  end.

End Classifier.

(** The dispatch table of the spec's Manifest Classifier, keyed by the
    (upper-cased) declared type. *)
Inductive manifest_kind : Type := KHls | KDash | KHds | KHss | KRaw.

Definition classify_type (format_type : string) : manifest_kind :=
  if String.eqb format_type "HLS" || String.eqb format_type "HLS_AES" then KHls
  else if String.eqb format_type "MPEG_DASH" then KDash
  else if String.eqb format_type "HDS" then KHds
  else if String.eqb format_type "HSS" then KHss
  else KRaw.

Section Kinds.

Variable m3u8 : string -> string -> string -> list fmt * subtitles.
Variable f4m : string -> string -> string -> list fmt.
Variable mpd : string -> string -> string -> list fmt * subtitles.
Variable ism : string -> string -> string -> list fmt * subtitles.

(** What a selected target contributes, by the kind of its type. *)
Definition by_kind (video_id ty u : string) : list fmt :=
  match classify_type ty with
  | KHls => fst (m3u8 u video_id ty)
  | KDash => fst (mpd u video_id ty)
  | KHds => f4m u video_id ty
  | KHss => fst (ism u video_id "mss")
  | KRaw => [mk_fmt ty u None]
  end.

End Kinds.

(** A URL that [url_or_none] accepts (its result is truthy). *)
Definition resolvable (url_or_none : string -> option string) (u : string) : bool :=
  Py.truthy (url_or_none u).

(** The tracks the second loop appends, in order. *)
Definition listed_tracks (data : api_data) : list track :=
  map (fun sub => mk_track (match s_url sub with Some u => u | None => "" end))
      (filter subtitle_selected (subtitleUrls data)).

End VRT.

(** [Radio1BeIE._extract_video_entries], on top of [VRTBaseIE._call_api]. *)
Module Radio1.
Import VRT.

(** The page item and each of its paragraphs. *)
Record paragraph : Type := mk_paragraph {
  mediaReference : option string;
  p_title : option string;
  p_body : option string
}.

Record page_item : Type := mk_page_item {
  item : paragraph;
  paragraphs : list paragraph
}.

(** What the VRT services answer: the [vrtnu-site_profile_vt] cookie, the
    [vrtPlayerToken] key of the tokens answer for an identity token, and
    the videos answer for a video id and player token ([inl] is the
    exception raised by a failed download). *)
Record vrt_site : Type := mk_vrt_site {
  profile_cookie : option string;
  player_token : string -> option string;
  video_answer : string -> string -> exn + api_data
}.

Record entry : Type := mk_entry {
  e_id : string;
  e_formats : list fmt;
  e_subtitles : subtitles;
  e_title : option string;
  e_description : option string
}.

(** [data['mediaReference']] *)
Definition media_reference_of (data : paragraph) : string :=
  match mediaReference data with Some m => m | None => "" end.

(** [VRTBaseIE._call_api] with [id_token=None]: the identity token is read
    from the cookie ([.value] of [None] is an [AttributeError]), then
    [json_response['vrtPlayerToken']]. *)
Definition _call_api (s : vrt_site) (video_id : string) : exn + api_data :=
  match profile_cookie s with
  | None => inl AttributeError
  | Some id_token =>
      match player_token s id_token with
      | None => inl (KeyError "vrtPlayerToken")
      | Some token => video_answer s video_id token
      end
  end.

Section Walk.

Variable url_or_none : string -> option string.
Variable m3u8 : string -> string -> string -> list fmt * subtitles.
Variable f4m : string -> string -> string -> list fmt.
Variable mpd : string -> string -> string -> list fmt * subtitles.
Variable ism : string -> string -> string -> list fmt * subtitles.
Variable ignore_no_formats_error : bool.

(** [self._extract_formats_and_subtitles(self._call_api(media_reference),
    display_id)] *)
Definition resolve_item (s : vrt_site) (display_id media_reference : string)
    : exn + (list fmt * subtitles) :=
  match _call_api s media_reference with
  | inl e => inl e
  | inr api =>
      _extract_formats_and_subtitles url_or_none m3u8 f4m mpd ism ignore_no_formats_error
        api display_id
  end.

(** The generator body: what it has yielded, and the exception that ended
    it, if any. *)
Fixpoint walk (s : vrt_site) (display_id : string) (video_data : list paragraph)
    : list entry * option exn :=
  match video_data with
  | [] => ([], None)
  | data :: rest =>
      let media_reference := media_reference_of data in
      match resolve_item s display_id media_reference with
      | inl e => ([], Some e)
      | inr (formats, subs) =>
          let '(es, err) := walk s display_id rest in
          (mk_entry media_reference formats subs (p_title data) (p_body data) :: es, err)
      end
  end.

(** [video_data]: the item and its paragraphs that have a
    [mediaReference]. *)
Definition video_data (next_js_data : page_item) : list paragraph :=
  filter (fun p => Py.truthy (mediaReference p)) (item next_js_data :: paragraphs next_js_data).

Definition _extract_video_entries (s : vrt_site) (next_js_data : page_item) (display_id : string)
    : list entry * option exn :=
  walk s display_id (video_data next_js_data).

End Walk.

End Radio1.

(** ** videoken.py *)
Module VideoKen.

(** One entry of ['videos'] and one category page answer; a failed
    download ([fatal=False]) is the empty answer [{}]. *)
Record video : Type := mk_video {
  youtube_id : option string;
  v_type : option string;
  embed_url : option string
}.

Record category_page : Type := mk_category_page {
  is_last_page : option bool;
  videos : list video
}.

Definition empty_page : category_page := mk_category_page None [].

(** [self.url_result(video_url, ie_key, video_id)] *)
Record url_result : Type := mk_url_result {
  ur_url : string;
  ur_ie_key : option string;
  ur_id : string
}.

Section Category.

(** [urllib.parse.urlparse(u).netloc] and
    [VideoKenBaseIE._create_slideslive_url]. *)
Variable netloc : option string -> string.
Variable _create_slideslive_url : option string -> string -> string -> option string.

(** [VideoKenBaseIE._extract_videos] *)
Definition video_entry (url : string) (v : video) : option url_result :=
  match youtube_id v with
  | None => None
  | Some video_id =>
      if String.eqb video_id "" then None else
      let '(video_url, ie_key) :=
        if opt_is (v_type v) "youtube" then (Some video_id, Some "Youtube")
        else if String.eqb (netloc (embed_url v)) "slideslive.com"
        then (_create_slideslive_url (embed_url v) video_id url, Some "SlidesLive")
        else (embed_url v, None) in
      match video_url with
      | Some u => if String.eqb u "" then None else Some (mk_url_result u ie_key video_id)
      | None => None
      end
  end.

Definition _extract_videos (page : category_page) (url : string) : list url_result :=
  flat_map (fun v => match video_entry url v with Some r => [r] | None => [] end) (videos page).

(** The answers of [_get_category_page] for each page number. *)
Variable category_page_at : nat -> category_page.

(** [VideoKenCategoryIE._entries], run for at most [fuel] pages: the
    items yielded and the pages fetched, in order. *)
Fixpoint entries_from (fuel page : nat) (url : string) : list url_result * list nat :=
  match fuel with
  | 0 => ([], [])
  | S fuel' =>
      let page_videos := category_page_at page in
      match is_last_page page_videos with
      | None => ([], [page])
      | Some last =>
          let items := _extract_videos page_videos url in
          if last then (items, [page])
          else let '(rest, fetched) := entries_from fuel' (S page) url in
               ((items ++ rest)%list, page :: fetched)
      end
  end.

Definition _entries (fuel : nat) (url : string) : list url_result * list nat :=
  entries_from fuel 1 url.

End Category.

End VideoKen.

(** ** mojevideo.py *)
Module Mojevideo.

(** [s.replace(c, '')] *)
Fixpoint remove_char (c : ascii) (s : string) : string :=
  match s with
  | EmptyString => EmptyString
  | String x r => if Ascii.eqb x c then remove_char c r else String x (remove_char c r)
  end.

(** Group 1 of the three [re.search] calls on the page ([None]: no match,
    and [.group] on [None] raises [AttributeError]). *)
Record page_matches : Type := mk_page_matches {
  vId_match : option string;
  vEx_match : option string;
  vHash_match : option string
}.

(** [MojevideoIE._real_extract]; the result is the info dict. *)
Definition _real_extract (url : string) (m : page_matches) : M (list (string * string)) :=
  send (HttpGet url) ;;;
  vId <- lift_option AttributeError (vId_match m) ;;
  vEx <- lift_option AttributeError (vEx_match m) ;;
  vHash_group <- lift_option AttributeError (vHash_match m) ;;
  let vHash := remove_char "'"%char (hd "" (Py.split ","%char vHash_group)) in
  let info : list (string * string) := [] in
  let video_url := "" in
  let info := if Py.truthy (Some video_url) then [(url, video_url)] else info in
  match info with
  | [] => throw (ExtractorError "No videos found on webpage" true)
  | _ => ret info
  end.

End Mojevideo.

(** ** More of vrt.py *)
Module VRTApi.
Import VRT.

(** What the VRT services answer: the [vrtnu-site_profile_vt] cookie, the
    [vrtPlayerToken] of the tokens answer (per API version and identity
    token), and the videos answer (per version, video id, player token and
    client; [inl] is the exception of a failed download). *)
Record api_site : Type := mk_api_site {
  profile_vt_cookie : option string;
  tokens_answer : string -> string -> option string;
  videos_answer : string -> string -> string -> string -> exn + api_data
}.

Definition tokens_url (version : string) : string :=
  "https://media-services-public.vrt.be/vualto-video-aggregator-web/rest/external/"
  ++ version ++ "/tokens".

Definition videos_url (version video_id : string) : string :=
  "https://media-services-public.vrt.be/vualto-video-aggregator-web/rest/external/"
  ++ version ++ "/videos/" ++ video_id.

(** [VRTBaseIE._call_api(video_id, client, id_token, version)]: the
    identity token [id_token or cookies.get(...).value] is computed while
    the POST body is built, before the tokens request. *)
Definition _call_api (s : api_site) (video_id client : string) (id_token : option string)
    (version : string) : M api_data :=
  identity <- (match id_token with
               | Some t => if Py.truthy id_token then ret t
                           else lift_option AttributeError (profile_vt_cookie s)
               | None => lift_option AttributeError (profile_vt_cookie s)
               end) ;;
  send (HttpPost (tokens_url version)) ;;;
  player_token <- lift_option (KeyError "vrtPlayerToken") (tokens_answer s version identity) ;;
  send (HttpGet (videos_url version video_id)) ;;;
  match videos_answer s version video_id player_token client with
  | inl e => throw e
  | inr data => ret data
  end.

(** [extract_attributes(...)] of the [vrtvideo] element: a dict, so a
    repeated attribute keeps its last value. *)
Definition attr (attrs : list (string * string)) (k : string) : option string :=
  Py.lookup k attrs.

(** [traverse_obj(attrs, k1, k2)]: the first key present. *)
Definition attr2 (attrs : list (string * string)) (k1 k2 : string) : option string :=
  match attr attrs k1 with Some v => Some v | None => attr attrs k2 end.

(** The asset id and client of [VRTIE._real_extract]: [asset_id =
    attrs.get('data-video-id') or attrs['data-videoid']], prefixed by a
    truthy publication id and ['$'], and [client = traverse_obj(...) or
    self._CLIENT_MAP[site]]; no class defines [_CLIENT_MAP], so that
    fallback raises [AttributeError]. *)
Definition asset_and_client (attrs : list (string * string)) : M (string * string) :=
  asset_id <- (if Py.truthy (attr attrs "data-video-id")
               then ret (match attr attrs "data-video-id" with Some v => v | None => "" end)
               else lift_option (KeyError "data-videoid") (attr attrs "data-videoid")) ;;
  let publication_id := attr2 attrs "data-publication-id" "data-publicationid" in
  let asset_id := match publication_id with
                  | Some p => if Py.truthy publication_id then p ++ "$" ++ asset_id else asset_id
                  | None => asset_id
                  end in
  let client := attr2 attrs "data-client-code" "data-client" in
  client <- (match client with
             | Some c => if Py.truthy client then ret c else throw AttributeError
             | None => throw AttributeError
             end) ;;
  ret (asset_id, client).


Section Extract.

Variable url_or_none : string -> option string.
Variable m3u8 : string -> string -> string -> list fmt * subtitles.
Variable f4m : string -> string -> string -> list fmt.
Variable mpd : string -> string -> string -> list fmt * subtitles.
Variable ism : string -> string -> string -> list fmt * subtitles.
Variable ignore_no_formats_error : bool.


End Extract.

(** [VRTLoginIE._perform_login]: the session request, then the login POST,
    whose headers read the [OIDCXSRF] cookie set by the first request;
    returns the new [_authenticated]. *)
Definition _perform_login (oidcxsrf_cookie : option string) : M bool :=
  send (HttpGet "https://www.vrt.be/vrtnu/sso/login") ;;;
  _ <- lift_option AttributeError oidcxsrf_cookie ;;
  send (HttpPost "https://login.vrt.be/perform_login") ;;;
  ret true.

End VRTApi.

(** ** More of videoken.py *)
Module VideoKenMore.
Import VideoKen.

(** [s.lstrip(chars)]: drops every leading character that occurs in
    [chars] (a set, not a prefix). *)
Fixpoint lstrip (chars s : string) : string :=
  match s with
  | EmptyString => EmptyString
  | String a r => if Py.contains a chars then lstrip chars r else s
  end.

(** [sub in s] *)
Definition has_sub (sub s : string) : bool :=
  match String.index 0 sub s with Some _ => true | None => false end.

Section Slideslive.

(** [utils.url_or_none] and [utils.update_url_query] with the two embed
    parameters derived from the referer. *)
Variable url_or_none : string -> option string.
Variable update_url_query : string -> string -> string.

(** [VideoKenBaseIE._create_slideslive_url] *)
Definition _create_slideslive_url (video_url : option string) (video_id referer : string)
    : option string :=
  if negb (Py.truthy video_url) && negb (Py.truthy (Some video_id)) then None
  else
    let video_url :=
      match video_url with
      | Some u => if negb (Py.truthy video_url) || has_sub "embed/sign-in" u
                  then "https://slideslive.com/embed/" ++ lstrip "slideslive-" video_id
                  else u
      | None => "https://slideslive.com/embed/" ++ lstrip "slideslive-" video_id
      end in
    if Py.truthy (url_or_none referer) then Some (update_url_query video_url referer)
    else Some video_url.

End Slideslive.

(** The organization details answer: its ['id'] and ['apikey']. *)
Record org_details : Type := mk_org_details {
  od_id : option string;
  od_apikey : option string
}.

Definition details_url (org : string) : string :=
  "https://analytics.videoken.com/api/videolake/" ++ org ++ "/details".

(** [VideoKenBaseIE._get_org_id_and_api_key] *)
Definition _get_org_id_and_api_key (answer : string -> org_details) (org : string)
    : M (string * string) :=
  send (HttpGet (details_url org)) ;;;
  let details := answer org in
  id <- lift_option (KeyError "id") (od_id details) ;;
  apikey <- lift_option (KeyError "apikey") (od_apikey details) ;;
  ret (id, apikey).

(** The video details answer: its ['type'] and ['embed_url']. *)
Record video_details : Type := mk_video_details {
  vd_type : option string;
  vd_embed_url : option string
}.

(** [url_result(url, ie_key, id)] where the URL may be [None]. *)
Record embed_result : Type := mk_embed_result {
  er_url : option string;
  er_ie_key : option string;
  er_id : string
}.

Section VideoKenIE.

Variable netloc : option string -> string.
Variable slideslive : option string -> string -> string -> option string.

(** [VideoKenIE._real_extract], from the matched host's organization. *)
Definition videoken_real_extract (orgs : string -> org_details) (org : string)
    (details : string -> string -> video_details) (url video_id : string) : M embed_result :=
  ids <- _get_org_id_and_api_key orgs org ;;
  let '(org_id, _) := ids in
  send (HttpGet "https://analytics.videoken.com/api/embedded/videodetails/") ;;;
  let d := details org_id video_id in
  embed_type <- lift_option (KeyError "type") (vd_type d) ;;
  if String.eqb embed_type "youtube" then ret (mk_embed_result (Some video_id) (Some "Youtube") video_id)
  else
    embed_url <- lift_option (KeyError "embed_url") (vd_embed_url d) ;;
    if String.eqb (netloc (Some embed_url)) "slideslive.com"
    then ret (mk_embed_result (slideslive (Some embed_url) video_id url) (Some "SlidesLive") video_id)
    else ret (mk_embed_result (Some embed_url) None video_id).

(** One result of a topic page and a topic page answer ([total_no_of_pages]
    after [int_or_none]). *)
Record topic_video : Type := mk_topic_video {
  videoid : option string;
  source : option string;
  embeddableurl : option string
}.

Record topic_page : Type := mk_topic_page {
  total_no_of_pages : option Z;
  results : list topic_video
}.

(** The loop body of [VideoKenTopicIE._entries] for one result. *)
Definition topic_entry (url : string) (v : topic_video) : option url_result :=
  match videoid v with
  | None => None
  | Some video_id =>
      if String.eqb video_id "" then None else
      let '(video_url, ie_key) :=
        if opt_is (source v) "youtube" then (Some video_id, Some "Youtube")
        else if String.eqb (netloc (embeddableurl v)) "slideslive.com"
        then (slideslive (embeddableurl v) video_id url, Some "SlidesLive")
        else (embeddableurl v, None) in
      match video_url with
      | Some u => if String.eqb u "" then None else Some (mk_url_result u ie_key video_id)
      | None => None
      end
  end.

Definition topic_items (page : topic_page) (url : string) : list url_result :=
  flat_map (fun v => match topic_entry url v with Some r => [r] | None => [] end) (results page).

Variable topic_page_at : nat -> topic_page.

(** [VideoKenTopicIE._entries] for at most [fuel] pages: the items and the
    pages fetched. *)
Fixpoint topic_entries_from (fuel page : nat) (url : string) : list url_result * list nat :=
  match fuel with
  | 0 => ([], [])
  | S fuel' =>
      let videos := topic_page_at page in
      match total_no_of_pages videos with
      | None => ([], [page])
      | Some total =>
          if Z.eqb total 0 then ([], [page]) else
          let items := topic_items videos url in
          if Z.eqb (Z.of_nat page) total then (items, [page])
          else let '(rest, fetched) := topic_entries_from fuel' (S page) url in
               ((items ++ rest)%list, page :: fetched)
      end
  end.

End VideoKenIE.

End VideoKenMore.

(** A redirect URL as the auth server writes it:
    [base?k1=v1&k2=v2...]. *)
Module Query.

Fixpoint join (sep : ascii) (l : list string) : string :=
  match l with
  | [] => ""
  | [x] => x
  | x :: r => x ++ String sep (join sep r)
  end.

Definition query_of (pairs : list (string * string)) : string :=
  join "&"%char (map (fun '(k, v) => k ++ "=" ++ v) pairs).

Definition redirect_url (base : string) (pairs : list (string * string)) : string :=
  base ++ "?" ++ query_of pairs.

(** No ['?'], ['&'] or ['='] in a key or value. *)
Definition plain (x : string) : bool :=
  negb (Py.contains "?"%char x) && negb (Py.contains "&"%char x) && negb (Py.contains "="%char x).

End Query.

(** ** Concrete inputs
    Answers of the framework helpers and of the sites on concrete inputs,
    used to run the extractors. *)
Module Samples.

(** [utils.url_or_none] on the URLs used below: they all start with
    [https://], which it accepts unchanged; it rejects [''] . *)
Definition url_or_none (u : string) : option string :=
  if String.eqb u "" then None else Some u.

(** Expanders whose manifests cannot be read ([fatal=False]). *)
Definition failed_fs (u v i : string) : list fmt * VRT.subtitles := ([], []).
Definition failed_f4m (u v i : string) : list fmt := [].
Definition failed_opt (u : option string) : list fmt := [].

(** An HLS manifest with one variant. *)
Definition one_hls_variant (u : option string) : list fmt :=
  [mk_fmt "hls-720" "https://x/720.m3u8" None].

(** A target of a type the classifier does not know. *)
Definition raw_target_data : VRT.api_data :=
  VRT.mk_api_data false [VRT.mk_target (Some "mp4") (Some "https://x/v.mp4")] [].

(** A listed closed-caption track that declares French. *)
Definition closed_fr_data : VRT.api_data :=
  VRT.mk_api_data false []
    [VRT.mk_subtitle_ref (Some "https://x/s.vtt") (Some "CLOSED") (Some "fr")].

(** iPrima without a configured password. *)
Definition no_password_site : IPrima.site :=
  IPrima.mk_site (Some "user", None) "https://auth.iprima.cz/oauth2/login"
    (fun _ => None) None (Some "p1") true (fun _ => IPrima.mk_play_json None None).

(** iPrima whose [/play] answer carries a geo-denial code. *)
Definition geo_denied_site : IPrima.site :=
  IPrima.mk_site (Some "user", Some "secret") "https://auth.iprima.cz/sso/auth_check.html?code=c1"
    (fun _ => Some "tok") None (Some "p12345") true
    (fun _ => IPrima.mk_play_json (Some "PLAY_GEOIP_DENIED") None).

(** Radio1: media reference ["a"] cannot be downloaded, ["b"] can. *)
Definition radio1_site : Radio1.vrt_site :=
  Radio1.mk_vrt_site (Some "idt") (fun _ => Some "ptok")
    (fun video_id _ =>
       if String.eqb video_id "a"
       then inl (ExtractorError "Failed to download API JSON" false)
       else inr (VRT.mk_api_data false [] [])).

Definition radio1_item : Radio1.page_item :=
  Radio1.mk_page_item (Radio1.mk_paragraph None (Some "page") None)
    [Radio1.mk_paragraph (Some "a") (Some "first") None;
     Radio1.mk_paragraph (Some "b") (Some "second") None].

(** Category pages: page 1 with one YouTube video and [is_last_page]
    false, page 2 with one and true, later pages answer [{}]. *)
Definition yt_video (id : string) : VideoKen.video :=
  VideoKen.mk_video (Some id) (Some "youtube") None.

Definition two_pages (n : nat) : VideoKen.category_page :=
  match n with
  | 1 => VideoKen.mk_category_page (Some false) [yt_video "y1"]
  | 2 => VideoKen.mk_category_page (Some true) [yt_video "y2"]
  | _ => VideoKen.empty_page
  end.

Definition no_netloc (u : option string) : string := "".
Definition no_slideslive (u : option string) (v r : string) : option string := None.

(** iPrima where every step succeeds, with one HLS stream. *)
Definition working_site : IPrima.site :=
  IPrima.mk_site (Some "user", Some "secret") "https://auth.iprima.cz/sso/auth_check.html?code=c1"
    (fun c => if String.eqb c "c1" then Some "tok" else None) (Some "Title") (Some "p12345") true
    (fun _ => IPrima.mk_play_json None
                (Some [IPrima.mk_stream_info (Some "HLS") (Some "https://x/a.m3u8")])).

Definition id_sort (l : list fmt) : list fmt := l.

(** The VRT services with a profile cookie, a player token and an empty
    video. *)
Definition vrt_api_site : VRTApi.api_site :=
  VRTApi.mk_api_site (Some "idt") (fun _ _ => Some "ptok")
    (fun _ _ _ _ => inr (VRT.mk_api_data false [] [])).

(** Radio1 where every media reference can be downloaded. *)
Definition radio1_ok_site : Radio1.vrt_site :=
  Radio1.mk_vrt_site (Some "idt") (fun _ => Some "ptok")
    (fun _ _ => inr (VRT.mk_api_data false [] [])).

(** Topic pages: every page reports [total] pages and one video. *)
Definition topic_pages (total : Z) (n : nat) : VideoKenMore.topic_page :=
  VideoKenMore.mk_topic_page (Some total)
    [VideoKenMore.mk_topic_video (Some "y") (Some "youtube") None].

(** An organization with an id and a key, and a YouTube video. *)
Definition icts_org (o : string) : VideoKenMore.org_details :=
  VideoKenMore.mk_org_details (Some "o1") (Some "k1").

Definition youtube_details (o v : string) : VideoKenMore.video_details :=
  VideoKenMore.mk_video_details (Some "youtube") None.

End Samples.

(** * Properties *)

Module IPrimaProps.
Import IPrima.

Lemma bind_throw {A B} (e : exn) (k : A -> M B) tr :
  bind (throw e) k tr = (inl e, tr).
Proof. reflexivity. Qed.

Lemma bind_ret {A B} (a : A) (k : A -> M B) tr :
  bind (ret a) k tr = k a tr.
Proof. reflexivity. Qed.

Lemma bind_send {B} r (k : unit -> M B) tr :
  bind (send r) k tr = k tt (tr ++ [r])%list.
Proof. reflexivity. Qed.

(** C8: iPrima mandates login; with the user name or the password not
    configured, the run fails with LOGIN_REQUIRED before any request (the
    trace stays empty). *)
Theorem login_required_before_network
    (m3u8 mpd : option string -> list fmt) (sort : list fmt -> list fmt)
    (s : site) (url : string)
    (Hcreds : fst (login_info s) = None \/ snd (login_info s) = None) :
  extract m3u8 mpd sort s url [] =
    (inl (LoginRequired "Login is required to access any iPrima content"), []).
Proof.
  unfold extract, _login.
  destruct (login_info s) as [[u|] [p|]]; simpl in Hcreds;
    destruct Hcreds as [H|H]; try discriminate; reflexivity.
Qed.

Lemma raise_access_error_some c tr :
  _raise_access_error (Some c) tr = (inl (access_error c), tr).
Proof.
  unfold _raise_access_error, access_error, opt_is; simpl.
  destruct (String.eqb c "PLAY_GEOIP_DENIED"); reflexivity.
Qed.

(** C5: once the product id is found, an [errorCode] of
    ["PLAY_GEOIP_DENIED"] in the [/play] answer ends the extraction with
    the geo-restriction error naming [['CZ']], any other non-null code with
    the generic forbidden error, and a null code with neither. *)
Theorem access_error_mapping
    (m3u8 mpd : option string -> list fmt) (sort : list fmt -> list fmt)
    (s : site) (url pid : string) (tr : list request)
    (Hid : page_product_id s = Some pid) :
  let r := fst (_real_extract m3u8 mpd sort s url tr) in
  (errorCode (api_play s pid) = Some "PLAY_GEOIP_DENIED" -> r = inl (GeoRestricted ["CZ"])) /\
  (forall c, errorCode (api_play s pid) = Some c -> c <> "PLAY_GEOIP_DENIED" ->
     r = inl (ExtractorError "Access to stream infos forbidden" true)) /\
  (errorCode (api_play s pid) = None -> forall e, r = inl e ->
     e <> GeoRestricted ["CZ"] /\ e <> ExtractorError "Access to stream infos forbidden" true).
Proof.
  cbv zeta. unfold _real_extract.
  rewrite bind_send. unfold lift_option. rewrite Hid, bind_ret, bind_send.
  split; [|split].
  - intros Hc. rewrite Hc. reflexivity.
  - intros c Hc Hne. rewrite Hc.
    unfold bind at 1. rewrite raise_access_error_some. unfold access_error.
    apply String.eqb_neq in Hne. rewrite Hne. reflexivity.
  - intros Hc e He. rewrite Hc in He.
    unfold _raise_access_error in He. simpl in He.
    destruct (streamInfos (api_play s pid)); [destruct (page_json_ld s)|]; cbn in He;
      inversion He; subst; split; discriminate.
Qed.

(** C2 (failing input): a login redirect with a query but no [code]
    parameter raises [KeyError('code')] in [_login], which the
    [except (IndexError)] does not turn into the user-facing login error;
    the run ends with the framework's generic, non-expected
    ['An extractor error has occurred.'].  Without a query at all the
    user-facing error is raised.  Both stop before the token request. *)
Theorem login_redirect_without_code
    (m3u8 mpd : option string -> list fmt) (sort : list fmt -> list fmt) (url : string) :
  _login (site_with_redirect "https://auth.iprima.cz/oauth2/login?error=access_denied") [] =
    (inl (KeyError "code"), [HttpGet _LOGIN_URL; HttpPost _LOGIN_URL]) /\
  extract m3u8 mpd sort
    (site_with_redirect "https://auth.iprima.cz/oauth2/login?error=access_denied") url [] =
    (inl (ExtractorError "An extractor error has occurred." false),
     [HttpGet _LOGIN_URL; HttpPost _LOGIN_URL]) /\
  extract m3u8 mpd sort
    (site_with_redirect "https://auth.iprima.cz/oauth2/login") url [] =
    (inl (ExtractorError "Login failed (invalid credentials?)" true),
     [HttpGet _LOGIN_URL; HttpPost _LOGIN_URL]).
Proof. split; [|split]; vm_compute; reflexivity. Qed.

Lemma login_required_before_network_witness :
  snd (login_info Samples.no_password_site) = None /\
  extract Samples.failed_opt Samples.failed_opt (fun l => l) Samples.no_password_site
    "https://www.iprima.cz/porady/x" [] =
    (inl (LoginRequired "Login is required to access any iPrima content"), []).
Proof.
  split; [reflexivity|].
  apply login_required_before_network. right; reflexivity.
Defined.

Lemma access_error_mapping_witness :
  page_product_id Samples.geo_denied_site = Some "p12345" /\
  fst (_real_extract Samples.failed_opt Samples.failed_opt (fun l => l) Samples.geo_denied_site
         "https://www.iprima.cz/porady/x" []) = inl (GeoRestricted ["CZ"]).
Proof.
  split; [reflexivity|].
  apply (proj1 (access_error_mapping Samples.failed_opt Samples.failed_opt (fun l => l)
                  Samples.geo_denied_site "https://www.iprima.cz/porady/x" "p12345" [] eq_refl)).
  reflexivity.
Defined.

End IPrimaProps.

Module MojevideoProps.
Import Mojevideo.

(** C9: whenever the three id patterns match, the extractor raises
    ['No videos found on webpage'] after fetching the page, because the
    video URL it builds is always empty. *)
Theorem matched_page_never_yields
    (url vId vEx vHash : string) (tr : list request) :
  _real_extract url (mk_page_matches (Some vId) (Some vEx) (Some vHash)) tr =
    (inl (ExtractorError "No videos found on webpage" true), (tr ++ [HttpGet url])%list).
Proof. reflexivity. Qed.

End MojevideoProps.

Module VRTProps.
Import VRT.

Section Classifier.

Variable url_or_none : string -> option string.
Variable m3u8 : string -> string -> string -> list fmt * subtitles.
Variable f4m : string -> string -> string -> list fmt.
Variable mpd : string -> string -> string -> list fmt * subtitles.
Variable ism : string -> string -> string -> list fmt * subtitles.

Lemma target_formats_by_kind video_id ty u :
  fst (target_formats m3u8 f4m mpd ism video_id ty u) = by_kind m3u8 f4m mpd ism video_id ty u.
Proof.
  unfold target_formats, by_kind, classify_type.
  destruct (String.eqb ty "HLS") eqn:E1; [reflexivity|].
  destruct (String.eqb ty "HLS_AES") eqn:E2; [reflexivity|]; simpl.
  destruct (String.eqb ty "HDS") eqn:E3.
  - apply String.eqb_eq in E3; subst; reflexivity.
  - destruct (String.eqb ty "MPEG_DASH") eqn:E4; [reflexivity|].
    destruct (String.eqb ty "HSS"); reflexivity.
Qed.

Lemma fold_target_step_fst video_id l fs ss :
  fst (fold_left (target_step m3u8 f4m mpd ism video_id) l (fs, ss)) =
  (fs ++ flat_map (fun t => fst (target_formats m3u8 f4m mpd ism video_id
                                  (format_type_of t) (format_url_of t))) l)%list.
Proof.
  revert fs ss; induction l as [|t l IH]; intros fs ss; simpl.
  - rewrite app_nil_r; reflexivity.
  - unfold target_step.
    destruct (target_formats m3u8 f4m mpd ism video_id (format_type_of t) (format_url_of t))
      as [fmts s] eqn:E.
    rewrite IH, app_assoc; reflexivity.
Qed.

Lemma formats_flat_map data video_id :
  fst (formats_and_subtitles url_or_none m3u8 f4m mpd ism data video_id) =
  flat_map (fun t => by_kind m3u8 f4m mpd ism video_id (format_type_of t) (format_url_of t))
           (filter (target_selected url_or_none) (targetUrls data)).
Proof.
  unfold formats_and_subtitles.
  assert (H := fold_target_step_fst video_id
                 (filter (target_selected url_or_none) (targetUrls data)) [] []).
  unfold expand_targets.
  destruct (fold_left _ _ _) as [fs ss]. simpl in *. rewrite H.
  apply flat_map_ext; intros t; apply target_formats_by_kind.
Qed.

Lemma extract_drm_error ignore data video_id :
  drm data = true -> ignore = false ->
  _extract_formats_and_subtitles url_or_none m3u8 f4m mpd ism ignore data video_id =
    inl (ExtractorError "This video is DRM protected" true).
Proof.
  intros Hd Hi. unfold _extract_formats_and_subtitles, report_drm. rewrite Hd, Hi. reflexivity.
Qed.

Lemma extract_passes ignore data video_id :
  drm data = false \/ ignore = true ->
  _extract_formats_and_subtitles url_or_none m3u8 f4m mpd ism ignore data video_id =
    inr (formats_and_subtitles url_or_none m3u8 f4m mpd ism data video_id).
Proof.
  intros H. unfold _extract_formats_and_subtitles, report_drm.
  destruct H as [H|H]; rewrite H; [reflexivity|]. destruct (drm data); reflexivity.
Qed.

Lemma extract_inr_inv ignore data video_id r :
  _extract_formats_and_subtitles url_or_none m3u8 f4m mpd ism ignore data video_id = inr r ->
  r = formats_and_subtitles url_or_none m3u8 f4m mpd ism data video_id.
Proof.
  unfold _extract_formats_and_subtitles, report_drm.
  destruct (drm data), ignore; cbn; congruence.
Qed.

Lemma resolvable_nonempty (Hempty : url_or_none "" = None) u :
  resolvable url_or_none u = true -> u <> "".
Proof.
  intros H ->. unfold resolvable in H. rewrite Hempty in H. discriminate.
Qed.

Lemma selected_resolvable t :
  target_selected url_or_none t = true -> resolvable url_or_none (format_url_of t) = true.
Proof.
  unfold target_selected, format_url_of, resolvable.
  destruct (t_url t) as [u|], (t_type t) as [ty|]; try discriminate.
  intros H. apply andb_prop in H. apply H.
Qed.

(** C1 (as the code has it): API data flagged [drm] ends the classifier
    with 'This video is DRM protected' (unless [ignore_no_formats_error] is
    set) before any target is looked at.  Otherwise the formats are, in
    the order of [targetUrls], the contributions of the targets with a URL
    accepted by [url_or_none] and a non-empty type; each contribution
    depends only on the upper-cased declared type (the URL extension is
    never looked at) through the table [classify_type], and a target of any
    other type yields exactly one raw variant whose [format_id] is the
    upper-cased type and whose URL is the target's. *)
Theorem classifier_dispatch_by_type (ignore : bool) (data : api_data) (video_id : string) :
  (drm data = true -> ignore = false ->
   _extract_formats_and_subtitles url_or_none m3u8 f4m mpd ism ignore data video_id =
     inl (ExtractorError "This video is DRM protected" true)) /\
  (drm data = false \/ ignore = true ->
   exists ss,
   _extract_formats_and_subtitles url_or_none m3u8 f4m mpd ism ignore data video_id =
     inr (flat_map (fun t => by_kind m3u8 f4m mpd ism video_id (format_type_of t) (format_url_of t))
                   (filter (target_selected url_or_none) (targetUrls data)), ss)) /\
  (forall d t subs, d = false \/ ignore = true ->
   target_selected url_or_none t = true -> classify_type (format_type_of t) = KRaw ->
   exists ss,
   _extract_formats_and_subtitles url_or_none m3u8 f4m mpd ism ignore
     (mk_api_data d [t] subs) video_id = inr ([mk_fmt (format_type_of t) (format_url_of t) None], ss)).
Proof.
  split; [|split].
  - apply extract_drm_error.
  - intros H. rewrite extract_passes by exact H.
    exists (snd (formats_and_subtitles url_or_none m3u8 f4m mpd ism data video_id)).
    rewrite <- formats_flat_map. destruct (formats_and_subtitles _ _ _ _ _ _ _); reflexivity.
  - intros d t subs H Hsel Hraw. rewrite extract_passes by exact H.
    exists (snd (formats_and_subtitles url_or_none m3u8 f4m mpd ism (mk_api_data d [t] subs) video_id)).
    assert (Hf := formats_flat_map (mk_api_data d [t] subs) video_id).
    cbn [targetUrls filter] in Hf. rewrite Hsel in Hf. cbn [flat_map] in Hf.
    unfold by_kind in Hf. rewrite Hraw, app_nil_r in Hf. rewrite <- Hf.
    destruct (formats_and_subtitles _ _ _ _ _ _ _); reflexivity.
Qed.

(** C6: if the framework's expanders only return formats with URLs that
    [url_or_none] accepts, then every format of a result has such a URL,
    which is not empty (a DRM error gives no format at all); a target
    whose URL is rejected (or whose type is empty) changes nothing, and an
    expander that fails adds nothing either (its empty answer is appended
    as it is). *)
Theorem formats_all_resolvable
    (Hempty : url_or_none "" = None)
    (Hm3u8 : forall u v i f, In f (fst (m3u8 u v i)) -> resolvable url_or_none (f_url f) = true)
    (Hf4m : forall u v i f, In f (f4m u v i) -> resolvable url_or_none (f_url f) = true)
    (Hmpd : forall u v i f, In f (fst (mpd u v i)) -> resolvable url_or_none (f_url f) = true)
    (Hism : forall u v i f, In f (fst (ism u v i)) -> resolvable url_or_none (f_url f) = true)
    (ignore : bool) (data : api_data) (video_id : string) :
  (forall fs ss,
     _extract_formats_and_subtitles url_or_none m3u8 f4m mpd ism ignore data video_id = inr (fs, ss) ->
     forall f, In f fs -> resolvable url_or_none (f_url f) = true /\ f_url f <> "") /\
  (forall l1 t l2, target_selected url_or_none t = false ->
     _extract_formats_and_subtitles url_or_none m3u8 f4m mpd ism ignore
       (mk_api_data (drm data) (l1 ++ t :: l2) (subtitleUrls data)) video_id =
     _extract_formats_and_subtitles url_or_none m3u8 f4m mpd ism ignore
       (mk_api_data (drm data) (l1 ++ l2) (subtitleUrls data)) video_id).
Proof.
  split.
  - intros fs ss Hr f Hf. apply extract_inr_inv in Hr.
    assert (Hf' : In f (fst (formats_and_subtitles url_or_none m3u8 f4m mpd ism data video_id)))
      by (rewrite <- Hr; exact Hf).
    rewrite formats_flat_map in Hf'.
    apply in_flat_map in Hf' as [t [Ht Hf']].
    apply filter_In in Ht as [_ Hsel].
    assert (Hres : resolvable url_or_none (f_url f) = true).
    { unfold by_kind in Hf'.
      destruct (classify_type (format_type_of t)).
      - eapply Hm3u8; eauto.
      - eapply Hmpd; eauto.
      - eapply Hf4m; eauto.
      - eapply Hism; eauto.
      - destruct Hf' as [<-|[]]. simpl. apply selected_resolvable; exact Hsel. }
    split; [exact Hres | exact (resolvable_nonempty Hempty _ Hres)].
  - intros l1 t l2 Ht.
    unfold _extract_formats_and_subtitles, formats_and_subtitles, expand_targets.
    cbn [drm targetUrls]. rewrite !filter_app. cbn [filter]. rewrite Ht. reflexivity.
Qed.

Lemma get_set_same d k v : get (set d k v) k = Some v.
Proof.
  induction d as [|[k' v'] d IH]; simpl.
  - rewrite String.eqb_refl; reflexivity.
  - destruct (String.eqb k k') eqn:E; simpl.
    + rewrite E; reflexivity.
    + rewrite E; exact IH.
Qed.

Lemma get_set_other d k k' v : k' <> k -> get (set d k v) k' = get d k'.
Proof.
  intros Hne. induction d as [|[k0 v0] d IH]; simpl.
  - apply String.eqb_neq in Hne. rewrite Hne. reflexivity.
  - destruct (String.eqb k k0) eqn:E; simpl.
    + apply String.eqb_eq in E; subst k0.
      apply String.eqb_neq in Hne. rewrite Hne. reflexivity.
    + destruct (String.eqb k' k0); [reflexivity | exact IH].
Qed.

Lemma fold_setdefault_nl {A} (g : A -> track) (l : list A) (acc : subtitles) :
  let out := fold_left (fun acc x => setdefault_append acc "nl" (g x)) l acc in
  get out "nl" = match map g l with
                 | [] => get acc "nl"
                 | ts => Some (get_default acc "nl" ++ ts)%list
                 end /\
  (forall lang, lang <> "nl" -> get out lang = get acc lang).
Proof.
  revert acc; induction l as [|x l IH]; intros acc; simpl.
  - split; reflexivity.
  - destruct (IH (setdefault_append acc "nl" (g x))) as [H1 H2].
    unfold setdefault_append in *. split.
    + rewrite H1. destruct (map g l) as [|y ys] eqn:E.
      * apply get_set_same.
      * unfold get_default at 1. rewrite get_set_same, <- app_assoc. reflexivity.
    + intros lang Hl. rewrite H2 by exact Hl. apply get_set_other; exact Hl.
Qed.

(** C7 (as the code has it): when the classifier returns (DRM-flagged
    data raises instead, unless [ignore_no_formats_error] is set), every
    explicitly listed track with a non-empty URL and type ['CLOSED'] is
    appended, in order, under ['nl'] after the ['nl'] tracks found while
    expanding the manifests, whatever language it declares; other listed
    tracks are ignored and the other languages keep exactly the tracks
    found while expanding. *)
Theorem listed_subtitles_under_nl (ignore : bool) (data : api_data) (video_id : string) :
  let ss0 := snd (expand_targets url_or_none m3u8 f4m mpd ism data video_id) in
  forall fs out,
  _extract_formats_and_subtitles url_or_none m3u8 f4m mpd ism ignore data video_id = inr (fs, out) ->
  (listed_tracks data <> [] -> get out "nl" = Some (get_default ss0 "nl" ++ listed_tracks data)%list) /\
  (listed_tracks data = [] -> get out "nl" = get ss0 "nl") /\
  (forall lang, lang <> "nl" -> get out lang = get ss0 lang).
Proof.
  cbv zeta. intros fs out Hr. apply extract_inr_inv in Hr.
  unfold formats_and_subtitles in Hr.
  destruct (expand_targets url_or_none m3u8 f4m mpd ism data video_id) as [fs0 ss0].
  injection Hr as -> ->. cbn [snd].
  unfold add_listed_subtitles, listed_tracks.
  destruct (fold_setdefault_nl (fun sub => mk_track (match s_url sub with Some u => u | None => "" end))
              (filter subtitle_selected (subtitleUrls data)) ss0) as [H1 H2].
  split; [|split].
  - intros Hne. rewrite H1. destruct (map _ _); [contradiction | reflexivity].
  - intros He. rewrite H1, He. reflexivity.
  - exact H2.
Qed.

End Classifier.

Lemma classifier_dispatch_by_type_witness :
  target_selected Samples.url_or_none (mk_target (Some "mp4") (Some "https://x/v.mp4")) = true /\
  exists ss,
  _extract_formats_and_subtitles Samples.url_or_none Samples.failed_fs Samples.failed_f4m
    Samples.failed_fs Samples.failed_fs false Samples.raw_target_data "v" =
  inr ([mk_fmt "MP4" "https://x/v.mp4" None], ss).
Proof.
  split; [reflexivity|].
  exact (proj2 (proj2 (classifier_dispatch_by_type Samples.url_or_none Samples.failed_fs
                         Samples.failed_f4m Samples.failed_fs Samples.failed_fs false
                         (mk_api_data false [] []) "v"))
               false (mk_target (Some "mp4") (Some "https://x/v.mp4")) []
               (or_introl eq_refl) eq_refl eq_refl).
Defined.

(** C1 refuted: a target of the unknown type ["mp4"] yields one raw
    variant, but its [format_id] is ["MP4"], not the literal type. *)
Lemma raw_format_id_is_upper_cased :
  _extract_formats_and_subtitles Samples.url_or_none Samples.failed_fs Samples.failed_f4m
    Samples.failed_fs Samples.failed_fs false Samples.raw_target_data "v" =
    inr ([mk_fmt "MP4" "https://x/v.mp4" None], []) /\
  t_type (hd (mk_target None None) (targetUrls Samples.raw_target_data)) = Some "mp4" /\
  "MP4" <> "mp4".
Proof. split; [reflexivity|]. split; [reflexivity | discriminate]. Qed.

Lemma formats_all_resolvable_witness :
  resolvable Samples.url_or_none "https://x/v.mp4" = true /\ "https://x/v.mp4" <> "".
Proof.
  refine (proj1 (formats_all_resolvable Samples.url_or_none Samples.failed_fs Samples.failed_f4m
                   Samples.failed_fs Samples.failed_fs eq_refl _ _ _ _ false
                   Samples.raw_target_data "v")
                [mk_fmt "MP4" "https://x/v.mp4" None] [] _
                (mk_fmt "MP4" "https://x/v.mp4" None) _).
  - intros u v i f H. destruct H.
  - intros u v i f H. destruct H.
  - intros u v i f H. destruct H.
  - intros u v i f H. destruct H.
  - vm_compute. reflexivity.
  - left. reflexivity.
Defined.

Lemma listed_subtitles_under_nl_witness :
  _extract_formats_and_subtitles Samples.url_or_none Samples.failed_fs Samples.failed_f4m
    Samples.failed_fs Samples.failed_fs false Samples.closed_fr_data "v" =
    inr ([], [("nl", [mk_track "https://x/s.vtt"])]) /\
  get [("nl", [mk_track "https://x/s.vtt"])] "nl" = Some [mk_track "https://x/s.vtt"].
Proof.
  split; [reflexivity|].
  exact (proj1 (listed_subtitles_under_nl Samples.url_or_none Samples.failed_fs Samples.failed_f4m
                  Samples.failed_fs Samples.failed_fs false Samples.closed_fr_data "v"
                  [] [("nl", [mk_track "https://x/s.vtt"])] eq_refl) ltac:(discriminate)).
Defined.

(** C7 refuted: a listed closed-caption track declaring ["fr"] is keyed
    under ["nl"], and the result has no ["fr"] key. *)
Lemma declared_language_ignored :
  s_language (hd (mk_subtitle_ref None None None) (subtitleUrls Samples.closed_fr_data)) = Some "fr" /\
  _extract_formats_and_subtitles Samples.url_or_none Samples.failed_fs Samples.failed_f4m
    Samples.failed_fs Samples.failed_fs false Samples.closed_fr_data "v" =
    inr ([], [("nl", [mk_track "https://x/s.vtt"])]) /\
  get [("nl", [mk_track "https://x/s.vtt"])] "fr" = None.
Proof. split; [reflexivity|]. split; reflexivity. Qed.

End VRTProps.

Module Radio1Props.
Import VRT Radio1.

Section Walk.

Variable url_or_none : string -> option string.
Variable m3u8 : string -> string -> string -> list fmt * subtitles.
Variable f4m : string -> string -> string -> list fmt.
Variable mpd : string -> string -> string -> list fmt * subtitles.
Variable ism : string -> string -> string -> list fmt * subtitles.
Variable ignore : bool.

(** C3 (as the code has it): the walk does not catch a failure of one
    item.  An item fails when its API call raises or when building its
    formats raises (DRM-flagged data, unless [ignore_no_formats_error] is
    set).  When every item before [d] resolves and [d] fails with [e], the
    generator has yielded exactly the earlier items and ends with [e]; the
    items after [d] are never reached. *)
Theorem walk_stops_at_first_failure
    (s : vrt_site) (display_id : string) (done : list paragraph) (d : paragraph)
    (rest : list paragraph) (e : exn)
    (Hdone : forall p, In p done ->
             exists r, resolve_item url_or_none m3u8 f4m mpd ism ignore s display_id
                         (media_reference_of p) = inr r)
    (Hd : resolve_item url_or_none m3u8 f4m mpd ism ignore s display_id
            (media_reference_of d) = inl e) :
  map e_id (fst (walk url_or_none m3u8 f4m mpd ism ignore s display_id (done ++ d :: rest))) =
    map media_reference_of done /\
  snd (walk url_or_none m3u8 f4m mpd ism ignore s display_id (done ++ d :: rest)) = Some e.
Proof.
  induction done as [|p done IH]; cbn [app walk].
  - rewrite Hd. split; reflexivity.
  - destruct (Hdone p (or_introl eq_refl)) as [[fs ss] Hp]. rewrite Hp.
    destruct IH as [IH1 IH2].
    { intros q Hq. apply Hdone. right. exact Hq. }
    destruct (walk url_or_none m3u8 f4m mpd ism ignore s display_id (done ++ d :: rest))
      as [es err].
    cbn in *. rewrite IH1, IH2. split; reflexivity.
Qed.

End Walk.

Lemma walk_stops_at_first_failure_witness :
  resolve_item Samples.url_or_none Samples.failed_fs Samples.failed_f4m Samples.failed_fs
    Samples.failed_fs false Samples.radio1_site "d" "a" =
    inl (ExtractorError "Failed to download API JSON" false) /\
  map e_id (fst (walk Samples.url_or_none Samples.failed_fs Samples.failed_f4m Samples.failed_fs
                   Samples.failed_fs false Samples.radio1_site "d"
                   ([] ++ mk_paragraph (Some "a") None None :: [mk_paragraph (Some "b") None None]))) =
    [].
Proof.
  split; [reflexivity|].
  apply (walk_stops_at_first_failure Samples.url_or_none Samples.failed_fs Samples.failed_f4m
           Samples.failed_fs Samples.failed_fs false Samples.radio1_site "d" []
           (mk_paragraph (Some "a") None None) [mk_paragraph (Some "b") None None]
           (ExtractorError "Failed to download API JSON" false)).
  - intros p [].
  - reflexivity.
Defined.

(** C3 refuted: on a page whose first media reference fails to download
    and whose second resolves, the walk yields nothing and ends with the
    error: the second item is not yielded. *)
Lemma failure_aborts_remaining_items :
  let r := _extract_video_entries Samples.url_or_none Samples.failed_fs Samples.failed_f4m
             Samples.failed_fs Samples.failed_fs false Samples.radio1_site Samples.radio1_item "d" in
  resolve_item Samples.url_or_none Samples.failed_fs Samples.failed_f4m Samples.failed_fs
    Samples.failed_fs false Samples.radio1_site "d" "b" = inr ([], []) /\
  ~ In "b" (map e_id (fst r)) /\
  snd r = Some (ExtractorError "Failed to download API JSON" false).
Proof. vm_compute. intuition discriminate. Qed.

End Radio1Props.

Module VideoKenProps.
Import VideoKen.

Section Category.

Variable netloc : option string -> string.
Variable slideslive : option string -> string -> string -> option string.
Variable pages : nat -> category_page.
Variable url : string.

Lemma entries_from_run (k : nat) :
  forall n fuel,
  (forall j, n <= j < n + k -> is_last_page (pages j) = Some false) ->
  is_last_page (pages (n + k)) = Some true ->
  k < fuel ->
  entries_from netloc slideslive pages fuel n url =
    (flat_map (fun j => _extract_videos netloc slideslive (pages j) url) (seq n (S k)), seq n (S k)).
Proof.
  induction k as [|k IH]; intros n fuel Hfalse Htrue Hfuel;
    (destruct fuel as [|fuel]; [lia|]); simpl.
  - rewrite Nat.add_0_r in Htrue. rewrite Htrue, app_nil_r. reflexivity.
  - rewrite (Hfalse n) by lia.
    rewrite (IH (S n) fuel).
    + reflexivity.
    + intros j Hj. apply Hfalse. lia.
    + replace (S n + k) with (n + S k) by lia. exact Htrue.
    + lia.
Qed.

(** C4: if pages [1 .. k-1] answer [is_last_page] false and page [k]
    answers true, the walk fetches exactly pages [1 .. k] and yields the
    items of those pages, however far it is pulled; if page 1 has no
    [is_last_page], it fetches that one page and yields nothing, without
    error. *)
Theorem category_walk_stops_at_last_page :
  (forall k fuel, 1 <= k ->
     (forall j, 1 <= j < k -> is_last_page (pages j) = Some false) ->
     is_last_page (pages k) = Some true ->
     k <= fuel ->
     _entries netloc slideslive pages fuel url =
       (flat_map (fun j => _extract_videos netloc slideslive (pages j) url) (seq 1 k), seq 1 k)) /\
  (is_last_page (pages 1) = None ->
     forall fuel, 1 <= fuel -> _entries netloc slideslive pages fuel url = ([], [1])).
Proof.
  split.
  - intros k fuel Hk Hfalse Htrue Hfuel. unfold _entries.
    destruct k as [|k]; [lia|].
    apply entries_from_run.
    + intros j Hj. apply Hfalse. lia.
    + exact Htrue.
    + lia.
  - intros Hnone fuel Hfuel. unfold _entries.
    destruct fuel as [|fuel]; [lia|]. simpl. rewrite Hnone. reflexivity.
Qed.

End Category.

Lemma category_walk_stops_at_last_page_witness :
  is_last_page (Samples.two_pages 1) = Some false /\
  is_last_page (Samples.two_pages 2) = Some true /\
  _entries Samples.no_netloc Samples.no_slideslive Samples.two_pages 5 "https://videos.icts.res.in/category/1822/" =
    ([mk_url_result "y1" (Some "Youtube") "y1"; mk_url_result "y2" (Some "Youtube") "y2"], [1; 2]).
Proof.
  split; [reflexivity|]. split; [reflexivity|].
  refine (proj1 (category_walk_stops_at_last_page Samples.no_netloc Samples.no_slideslive
                   Samples.two_pages "https://videos.icts.res.in/category/1822/")
                2 5 _ _ eq_refl _).
  - lia.
  - intros j Hj. replace j with 1 by lia. reflexivity.
  - lia.
Defined.

End VideoKenProps.

Module IPrimaCNNProps.
Import IPrima.

(** C10 (as the code has it): a track is expanded as HLS when its key is
    ['hls'] or its URL extension is ['m3u8'] (this test comes first, so it
    also takes tracks with key ['dash'] or extension ['mpd']); its variants
    are appended, the track's language (when non-empty) set on those whose
    language is absent or empty.  Every other track adds nothing: one with
    key ['dash'] or extension ['mpd'] returns before the DASH expansion. *)
Theorem cnn_track_formats (m3u8 : option string -> list fmt) (formats : list fmt)
    (format_url : string) (format_key lang : option string) :
  (opt_is format_key "hls" || String.eqb (determine_ext (Some format_url)) "m3u8" = true ->
   cnn_extract_formats m3u8 formats format_url format_key lang =
     (formats ++ map (fun f => if Py.truthy lang && negb (Py.truthy (language f))
                               then mk_fmt (format_id f) (f_url f) lang else f)
                     (m3u8 (Some format_url)))%list) /\
  (opt_is format_key "hls" || String.eqb (determine_ext (Some format_url)) "m3u8" = false ->
   cnn_extract_formats m3u8 formats format_url format_key lang = formats).
Proof.
  unfold cnn_extract_formats, set_language. split; intros H; rewrite H.
  - f_equal. destruct (Py.truthy lang); simpl.
    + apply map_ext. intros f. destruct (Py.truthy (language f)); reflexivity.
    + symmetry. apply map_id.
  - destruct (opt_is format_key "dash" || String.eqb (determine_ext (Some format_url)) "mpd").
    + reflexivity.
    + destruct (Py.truthy lang); apply app_nil_r.
Qed.

Lemma cnn_track_formats_witness :
  cnn_extract_formats Samples.one_hls_variant [] "https://x/master.m3u8" (Some "hls") (Some "cs") =
    [mk_fmt "hls-720" "https://x/720.m3u8" (Some "cs")].
Proof.
  exact (proj1 (cnn_track_formats Samples.one_hls_variant [] "https://x/master.m3u8"
                  (Some "hls") (Some "cs")) eq_refl).
Defined.

(** C10 refuted: a track with key ['dash'] whose URL ends in [.m3u8]
    takes the HLS branch and contributes its variants. *)
Lemma dash_key_with_m3u8_url_expanded :
  opt_is (Some "dash") "dash" = true /\
  cnn_extract_formats Samples.one_hls_variant [] "https://x/master.m3u8" (Some "dash") None =
    [mk_fmt "hls-720" "https://x/720.m3u8" None].
Proof. split; reflexivity. Qed.

End IPrimaCNNProps.

Module PyProps.

Lemma contains_app c a b :
  Py.contains c (a ++ b) = Py.contains c a || Py.contains c b.
Proof.
  induction a as [|x a IH]; simpl; [reflexivity|].
  rewrite IH, orb_assoc. reflexivity.
Qed.

Lemma split_no_sep c a : Py.contains c a = false -> Py.split c a = [a].
Proof.
  induction a as [|x a IH]; simpl; [reflexivity|].
  intros H. apply orb_false_iff in H as [H1 H2].
  rewrite H1, IH by exact H2. reflexivity.
Qed.

Lemma split_app_sep c a b :
  Py.contains c a = false -> Py.split c (a ++ String c b) = a :: Py.split c b.
Proof.
  induction a as [|x a IH]; simpl; intros H.
  - rewrite Ascii.eqb_refl. reflexivity.
  - apply orb_false_iff in H as [H1 H2]. rewrite H1, IH by exact H2. reflexivity.
Qed.

Lemma split_join c l :
  l <> [] -> Forall (fun x => Py.contains c x = false) l -> Py.split c (Query.join c l) = l.
Proof.
  induction l as [|x l IH]; intros Hne Hall; [congruence|].
  inversion Hall as [|? ? Hx Hl]; subst.
  destruct l as [|y l].
  - simpl. apply split_no_sep, Hx.
  - change (Query.join c (x :: y :: l)) with (x ++ String c (Query.join c (y :: l))).
    rewrite split_app_sep by exact Hx. rewrite IH; [reflexivity | discriminate | exact Hl].
Qed.

Lemma contains_join c sep l :
  c <> sep -> Forall (fun x => Py.contains c x = false) l -> Py.contains c (Query.join sep l) = false.
Proof.
  intros Hc. induction l as [|x l IH]; intros Hall; [reflexivity|].
  inversion Hall as [|? ? Hx Hl]; subst.
  destruct l as [|y l]; [exact Hx|].
  change (Query.join sep (x :: y :: l)) with (x ++ String sep (Query.join sep (y :: l))).
  rewrite contains_app, Hx. cbn [orb Py.contains]. rewrite IH by exact Hl.
  replace (Ascii.eqb sep c) with false; [reflexivity|].
  symmetry. apply Ascii.eqb_neq. congruence.
Qed.

End PyProps.

Module IPrimaMoreProps.
Import IPrima PyProps.

Lemma plain_contains x :
  Query.plain x = true ->
  Py.contains "?"%char x = false /\ Py.contains "&"%char x = false /\ Py.contains "="%char x = false.
Proof.
  unfold Query.plain. intros H.
  apply andb_prop in H as [H H3]. apply andb_prop in H as [H1 H2].
  apply negb_true_iff in H1, H2, H3. auto.
Qed.

Lemma kv_contains c k v :
  c <> "="%char -> Py.contains c k = false -> Py.contains c v = false ->
  Py.contains c (k ++ "=" ++ v) = false.
Proof.
  intros Hc Hk Hv. rewrite contains_app, Hk.
  change ("=" ++ v) with (String "="%char v). cbn [orb Py.contains]. rewrite Hv.
  replace (Ascii.eqb "=" c) with false; [reflexivity|].
  symmetry. apply Ascii.eqb_neq. congruence.
Qed.

Lemma dict_of_kv pairs :
  Forall (fun '(k, v) => Query.plain k = true /\ Query.plain v = true) pairs ->
  Py.dict_of_pairs (map (Py.split "="%char) (map (fun '(k, v) => k ++ "=" ++ v) pairs)) = Some pairs.
Proof.
  induction pairs as [|[k v] pairs IH]; intros Hall; [reflexivity|].
  inversion Hall as [|? ? Hkv Hr]; subst. destruct Hkv as [Hk Hv].
  destruct (plain_contains k Hk) as [_ [_ Hk3]].
  destruct (plain_contains v Hv) as [_ [_ Hv3]].
  cbn [map]. change ("=" ++ v) with (String "="%char v).
  rewrite split_app_sep by exact Hk3. rewrite split_no_sep by exact Hv3.
  cbn [Py.dict_of_pairs]. rewrite IH by exact Hr. reflexivity.
Qed.

(** The login redirect parser reads back the [code] of a well-formed
    redirect [base?k1=v1&...]: when neither the base nor any key or value
    contains ['?'], ['&'] or ['='], it returns the value of the last [code]
    parameter, and raises [KeyError('code')] when there is none. *)
Theorem parse_code_query_roundtrip (base : string) (pairs : list (string * string))
    (tr : list request)
    (Hbase : Py.contains "?"%char base = false)
    (Hne : pairs <> [])
    (Hplain : Forall (fun '(k, v) => Query.plain k = true /\ Query.plain v = true) pairs) :
  parse_code (Query.redirect_url base pairs) tr =
    match Py.lookup "code" pairs with
    | Some c => (inr c, tr)
    | None => (inl (KeyError "code"), tr)
    end.
Proof.
  assert (Hkv : Forall (fun x => Py.contains "&"%char x = false /\ Py.contains "?"%char x = false)
                       (map (fun '(k, v) => k ++ "=" ++ v) pairs)).
  { apply Forall_map. eapply Forall_impl; [|exact Hplain].
    intros [k v] [Hk Hv]. apply plain_contains in Hk as [Hk1 [Hk2 _]].
    apply plain_contains in Hv as [Hv1 [Hv2 _]].
    split; apply kv_contains; auto; discriminate. }
  assert (Hq : Py.contains "?"%char (Query.query_of pairs) = false).
  { unfold Query.query_of. apply contains_join; [discriminate|].
    eapply Forall_impl; [|exact Hkv]. intros x [_ H]; exact H. }
  unfold parse_code, Query.redirect_url.
  change ("?" ++ Query.query_of pairs) with (String "?"%char (Query.query_of pairs)).
  rewrite split_app_sep by exact Hbase. rewrite split_no_sep by exact Hq.
  unfold Py.index. simpl. unfold Query.query_of.
  rewrite split_join.
  - rewrite dict_of_kv by exact Hplain. unfold lift_option.
    destruct (Py.lookup "code" pairs); reflexivity.
  - destruct pairs; [congruence | discriminate].
  - eapply Forall_impl; [|exact Hkv]. intros x [H _]; exact H.
Qed.

(** On the full login-then-extract path with working credentials, a
    redirect that carries a code, a token for it, a product id, a [/play]
    answer without [errorCode] and with stream infos, and a page whose
    JSON-LD gives a non-empty info, the run issues exactly
    five requests in this order (login page, login POST, token POST, video
    page, [/play]) and returns the product id, the page title and the sorted
    formats of all manifests. *)
Theorem extract_success_trace
    (m3u8 mpd : option string -> list fmt) (sort : list fmt -> list fmt)
    (s : site) (url u p code token pid : string) (infos : list stream_info)
    (Hcreds : login_info s = (Some u, Some p))
    (Hcode : forall tr, parse_code (login_redirect_url s) tr = (inr code, tr))
    (Htok : token_access_token s code = Some token)
    (Hid : page_product_id s = Some pid)
    (Herr : errorCode (api_play s pid) = None)
    (Hinfos : streamInfos (api_play s pid) = Some infos)
    (Hld : page_json_ld s = true) :
  extract m3u8 mpd sort s url [] =
    (inr (mk_descriptor pid (page_title s) (sort (flat_map (manifest_formats m3u8 mpd) infos))),
     [HttpGet _LOGIN_URL; HttpPost _LOGIN_URL; HttpPost _TOKEN_URL; HttpGet url;
      HttpGet (play_url pid)]).
Proof.
  unfold extract, wrap_key_error.
  assert (H : bind (_login s) (fun _ => _real_extract m3u8 mpd sort s url) [] =
    (inr (mk_descriptor pid (page_title s) (sort (flat_map (manifest_formats m3u8 mpd) infos))),
     [HttpGet _LOGIN_URL; HttpPost _LOGIN_URL; HttpPost _TOKEN_URL; HttpGet url;
      HttpGet (play_url pid)])).
  { unfold _login. rewrite Hcreds.
    unfold bind at 1. cbn -[parse_code _real_extract].
    unfold bind at 1. rewrite Hcode. cbn -[_real_extract].
    rewrite Htok. cbn -[_real_extract].
    unfold _real_extract, lift_option. rewrite Hid. cbn -[_raise_access_error].
    rewrite Herr. cbn. rewrite Hinfos. cbn. rewrite Hld. reflexivity. }
  rewrite H. reflexivity.
Qed.

(** When the token endpoint answers without an [access_token], the run
    stops with "Getting token failed" after the three login requests, and
    the video page is never fetched. *)
Theorem login_token_failure
    (m3u8 mpd : option string -> list fmt) (sort : list fmt -> list fmt)
    (s : site) (url u p code : string)
    (Hcreds : login_info s = (Some u, Some p))
    (Hcode : forall tr, parse_code (login_redirect_url s) tr = (inr code, tr))
    (Htok : token_access_token s code = None) :
  extract m3u8 mpd sort s url [] =
    (inl (ExtractorError "Getting token failed" true),
     [HttpGet _LOGIN_URL; HttpPost _LOGIN_URL; HttpPost _TOKEN_URL]).
Proof.
  unfold extract, wrap_key_error.
  assert (H : bind (_login s) (fun _ => _real_extract m3u8 mpd sort s url) [] =
    (inl (ExtractorError "Getting token failed" true),
     [HttpGet _LOGIN_URL; HttpPost _LOGIN_URL; HttpPost _TOKEN_URL])).
  { unfold _login. rewrite Hcreds.
    unfold bind at 1. cbn -[parse_code _real_extract].
    unfold bind at 1. rewrite Hcode. cbn -[_real_extract].
    rewrite Htok. reflexivity. }
  rewrite H. reflexivity.
Qed.

(** The two early exits of [_real_extract]: a page without a product id
    fails with "Unable to extract real id" after the page request alone; a
    [/play] answer without [errorCode] and without [streamInfos] fails with
    "Reading stream infos failed" after the page and [/play] requests. *)
Theorem real_extract_early_exits
    (m3u8 mpd : option string -> list fmt) (sort : list fmt -> list fmt)
    (s : site) (url : string) (tr : list request) :
  (page_product_id s = None ->
   _real_extract m3u8 mpd sort s url tr =
     (inl (ExtractorError "Unable to extract real id" false), (tr ++ [HttpGet url])%list)) /\
  (forall pid, page_product_id s = Some pid ->
   errorCode (api_play s pid) = None -> streamInfos (api_play s pid) = None ->
   _real_extract m3u8 mpd sort s url tr =
     (inl (ExtractorError "Reading stream infos failed" true),
      ((tr ++ [HttpGet url]) ++ [HttpGet (play_url pid)])%list)).
Proof.
  unfold _real_extract, lift_option. split.
  - intros H. rewrite H. reflexivity.
  - intros pid H He Hs. rewrite H. cbn -[_raise_access_error].
    rewrite He. cbn. rewrite Hs. reflexivity.
Qed.

(** How one stream info is expanded: an URL with the [.m3u8] extension is
    read as HLS whatever its declared type, a declared ["HLS"] type is read
    as HLS whatever the extension, and a manifest that is neither HLS nor
    DASH by type or by extension contributes no format. *)
Theorem manifest_formats_dispatch
    (m3u8 mpd : option string -> list fmt) (t u : option string) :
  (determine_ext u = "m3u8" -> manifest_formats m3u8 mpd (mk_stream_info t u) = m3u8 u) /\
  (opt_is t "HLS" = true -> manifest_formats m3u8 mpd (mk_stream_info t u) = m3u8 u) /\
  (opt_is t "HLS" = false -> opt_is t "DASH" = false ->
   determine_ext u <> "m3u8" -> determine_ext u <> "mpd" ->
   manifest_formats m3u8 mpd (mk_stream_info t u) = []).
Proof.
  unfold manifest_formats; cbn [si_type si_url]. split; [|split].
  - intros H. rewrite H. simpl. rewrite orb_true_r. reflexivity.
  - intros H. rewrite H. reflexivity.
  - intros H1 H2 H3 H4. rewrite H1, H2.
    apply String.eqb_neq in H3, H4. rewrite H3, H4. reflexivity.
Qed.

(** [IPrimaCNNIE]'s language fill-in keeps every format's id and URL and
    the list's length, leaves a format that has a language untouched, gives
    the others the page language when that one is set, and applying it a
    second time changes nothing. *)
Theorem set_language_fills_only_missing (lang : option string) (fs : list fmt) :
  map format_id (set_language lang fs) = map format_id fs /\
  map f_url (set_language lang fs) = map f_url fs /\
  map language (set_language lang fs) =
    map (fun f => if Py.truthy (language f) then language f
                  else if Py.truthy lang then lang else language f) fs /\
  set_language lang (set_language lang fs) = set_language lang fs.
Proof.
  unfold set_language. destruct (Py.truthy lang) eqn:Hl.
  - rewrite !map_map. split; [|split; [|split]].
    + apply map_ext. intros f. destruct (Py.truthy (language f)); reflexivity.
    + apply map_ext. intros f. destruct (Py.truthy (language f)); reflexivity.
    + apply map_ext. intros f. destruct (Py.truthy (language f)); reflexivity.
    + apply map_ext. intros f. destruct (Py.truthy (language f)) eqn:Hf.
      * rewrite Hf. reflexivity.
      * cbn [language]. rewrite Hl. reflexivity.
  - split; [reflexivity|]. split; [reflexivity|]. split; [|reflexivity].
    apply map_ext. intros f. destruct (Py.truthy (language f)); reflexivity.
Qed.

End IPrimaMoreProps.

Module IPrimaMoreWitnesses.
Import IPrima IPrimaMoreProps.

Lemma parse_code_query_roundtrip_witness :
  Py.contains "?"%char "https://auth.iprima.cz/sso/auth_check.html" = false /\
  parse_code (Query.redirect_url "https://auth.iprima.cz/sso/auth_check.html"
                [("code", "c0"); ("state", "s"); ("code", "c1")]) [] = (inr "c1", []).
Proof.
  split; [reflexivity|].
  apply (parse_code_query_roundtrip "https://auth.iprima.cz/sso/auth_check.html"
           [("code", "c0"); ("state", "s"); ("code", "c1")] []).
  - reflexivity.
  - discriminate.
  - repeat constructor.
Defined.

Lemma extract_success_trace_witness :
  extract Samples.one_hls_variant Samples.failed_opt Samples.id_sort Samples.working_site
    "https://www.iprima.cz/v" [] =
    (inr (mk_descriptor "p12345" (Some "Title") [mk_fmt "hls-720" "https://x/720.m3u8" None]),
     [HttpGet _LOGIN_URL; HttpPost _LOGIN_URL; HttpPost _TOKEN_URL; HttpGet "https://www.iprima.cz/v";
      HttpGet (play_url "p12345")]).
Proof.
  apply (extract_success_trace Samples.one_hls_variant Samples.failed_opt Samples.id_sort
           Samples.working_site "https://www.iprima.cz/v" "user" "secret" "c1" "tok" "p12345"
           [mk_stream_info (Some "HLS") (Some "https://x/a.m3u8")]).
  - reflexivity.
  - intros tr. vm_compute. reflexivity.
  - reflexivity.
  - reflexivity.
  - reflexivity.
  - reflexivity.
  - reflexivity.
Defined.

Lemma login_token_failure_witness :
  extract Samples.one_hls_variant Samples.failed_opt Samples.id_sort
    (mk_site (Some "user", Some "secret") "https://auth.iprima.cz/sso/auth_check.html?code=c1"
       (fun _ => None) None (Some "p1") true (fun _ => mk_play_json None None))
    "https://www.iprima.cz/v" [] =
    (inl (ExtractorError "Getting token failed" true),
     [HttpGet _LOGIN_URL; HttpPost _LOGIN_URL; HttpPost _TOKEN_URL]).
Proof.
  apply (login_token_failure Samples.one_hls_variant Samples.failed_opt Samples.id_sort
           (mk_site (Some "user", Some "secret") "https://auth.iprima.cz/sso/auth_check.html?code=c1"
              (fun _ => None) None (Some "p1") true (fun _ => mk_play_json None None))
           "https://www.iprima.cz/v" "user" "secret" "c1").
  - reflexivity.
  - intros tr. vm_compute. reflexivity.
  - reflexivity.
Defined.

End IPrimaMoreWitnesses.

Module VRTApiProps.
Import VRT VRTApi.

(** [VRTBaseIE._call_api] reads the identity token before any request: with
    no truthy [id_token] and no [vrtnu-site_profile_vt] cookie it raises
    [AttributeError] and nothing is sent; with a truthy [id_token] the
    cookie is never consulted. *)
Theorem call_api_identity_token (s : api_site) (video_id client version : string)
    (id_token : option string) (tr : list request) :
  (Py.truthy id_token = false -> profile_vt_cookie s = None ->
   _call_api s video_id client id_token version tr = (inl AttributeError, tr)) /\
  (Py.truthy id_token = true -> forall cookie,
   _call_api (mk_api_site cookie (tokens_answer s) (videos_answer s)) video_id client id_token
     version tr = _call_api s video_id client id_token version tr).
Proof.
  unfold _call_api. split.
  - intros Ht Hc. destruct id_token as [t|]; [rewrite Ht|]; unfold lift_option;
      rewrite Hc; reflexivity.
  - intros Ht cookie. destruct id_token as [t|]; [|discriminate]. rewrite Ht. reflexivity.
Qed.

(** With an identity token from the cookie, the tokens endpoint is posted
    once; an answer without [vrtPlayerToken] raises [KeyError] right after
    that POST, and otherwise the videos endpoint of the same API version and
    video id is fetched and its answer is the result. *)
Theorem call_api_requests (s : api_site) (video_id client version identity : string)
    (tr : list request)
    (Hid : profile_vt_cookie s = Some identity) :
  (tokens_answer s version identity = None ->
   _call_api s video_id client None version tr =
     (inl (KeyError "vrtPlayerToken"), (tr ++ [HttpPost (tokens_url version)])%list)) /\
  (forall pt, tokens_answer s version identity = Some pt ->
   _call_api s video_id client None version tr =
     (match videos_answer s version video_id pt client with
      | inl e => inl e
      | inr d => inr d
      end,
      ((tr ++ [HttpPost (tokens_url version)]) ++ [HttpGet (videos_url version video_id)])%list)).
Proof.
  unfold _call_api, lift_option. rewrite Hid. split.
  - intros H. cbn. rewrite H. reflexivity.
  - intros pt H. cbn. rewrite H. cbn.
    destruct (videos_answer s version video_id pt client); reflexivity.
Qed.

Lemma call_api_requests_witness :
  profile_vt_cookie Samples.vrt_api_site = Some "idt" /\
  _call_api Samples.vrt_api_site "vid" "client" None "v2" [] =
    (inr (mk_api_data false [] []), [HttpPost (tokens_url "v2"); HttpGet (videos_url "v2" "vid")]).
Proof.
  split; [reflexivity|].
  apply (proj2 (call_api_requests Samples.vrt_api_site "vid" "client" "v2" "idt" [] eq_refl)
           "ptok" eq_refl).
Defined.

Lemma bind_inr {A B} (m : M A) (k : A -> M B) tr a tr' :
  m tr = (inr a, tr') -> bind m k tr = k a tr'.
Proof. intros H. unfold bind. rewrite H. reflexivity. Qed.


Lemma asset_id_step attrs v tr :
  (attr attrs "data-video-id" = Some v /\ v <> "") \/
  (Py.truthy (attr attrs "data-video-id") = false /\ attr attrs "data-videoid" = Some v) ->
  (if Py.truthy (attr attrs "data-video-id")
   then ret (match attr attrs "data-video-id" with Some v => v | None => "" end)
   else lift_option (KeyError "data-videoid") (attr attrs "data-videoid")) tr = (inr v, tr).
Proof.
  intros [[H1 H2]|[H1 H2]].
  - rewrite H1. apply String.eqb_neq in H2. cbn. rewrite H2. reflexivity.
  - rewrite H1, H2. reflexivity.
Qed.

(** How [VRTIE] builds the asset id: with [data-video-id] missing or
    empty and no [data-videoid] it raises [KeyError('data-videoid')].
    Otherwise the video id [v] is [data-video-id] when non-empty, else
    [data-videoid]; with a non-empty client code [c], the asset id is the
    publication id, ['$'] and [v] when the publication id is non-empty,
    and [v] alone when it is missing or empty. *)
Theorem asset_id_composition (attrs : list (string * string)) (tr : list request) :
  (Py.truthy (attr attrs "data-video-id") = false -> attr attrs "data-videoid" = None ->
   asset_and_client attrs tr = (inl (KeyError "data-videoid"), tr)) /\
  (forall v c,
   (attr attrs "data-video-id" = Some v /\ v <> "") \/
   (Py.truthy (attr attrs "data-video-id") = false /\ attr attrs "data-videoid" = Some v) ->
   attr2 attrs "data-client-code" "data-client" = Some c -> c <> "" ->
   (forall p, attr2 attrs "data-publication-id" "data-publicationid" = Some p -> p <> "" ->
    asset_and_client attrs tr = (inr (p ++ "$" ++ v, c), tr)) /\
   (Py.truthy (attr2 attrs "data-publication-id" "data-publicationid") = false ->
    asset_and_client attrs tr = (inr (v, c), tr))).
Proof.
  split.
  - intros H1 H2. unfold asset_and_client, bind at 1. rewrite H1. unfold lift_option.
    rewrite H2. reflexivity.
  - intros v c Hv Hc Hc'. apply String.eqb_neq in Hc'.
    unfold asset_and_client. rewrite (bind_inr _ _ _ _ _ (asset_id_step attrs v tr Hv)).
    cbv beta. split.
    + intros p Hp Hp'. apply String.eqb_neq in Hp'. rewrite Hp, Hc. cbn.
      rewrite Hp', Hc'. reflexivity.
    + intros Hp. rewrite Hc.
      destruct (attr2 attrs "data-publication-id" "data-publicationid") as [p|];
        [rewrite Hp|]; cbn; rewrite Hc'; reflexivity.
Qed.

Section Extract.

Variable url_or_none : string -> option string.
Variable m3u8 : string -> string -> string -> list fmt * subtitles.
Variable f4m : string -> string -> string -> list fmt.
Variable mpd : string -> string -> string -> list fmt * subtitles.
Variable ism : string -> string -> string -> list fmt * subtitles.
Variable ignore : bool.


End Extract.


(** The login POST reads the [OIDCXSRF] cookie the session request set:
    without it the login fails with [AttributeError] after the GET alone, so
    the credentials are never posted; with it the GET and the POST are sent
    in this order and the session counts as authenticated. *)
Theorem perform_login_needs_xsrf (cookie : option string) (tr : list request) :
  (cookie = None ->
   _perform_login cookie tr =
     (inl AttributeError, (tr ++ [HttpGet "https://www.vrt.be/vrtnu/sso/login"])%list)) /\
  (forall c, cookie = Some c ->
   _perform_login cookie tr =
     (inr true, ((tr ++ [HttpGet "https://www.vrt.be/vrtnu/sso/login"])
                 ++ [HttpPost "https://login.vrt.be/perform_login"])%list)).
Proof.
  split; intros; subst; reflexivity.
Qed.

End VRTApiProps.

Module Radio1MoreProps.
Import VRT Radio1.

Section Walk.

Variable url_or_none : string -> option string.
Variable m3u8 : string -> string -> string -> list fmt * subtitles.
Variable f4m : string -> string -> string -> list fmt.
Variable mpd : string -> string -> string -> list fmt * subtitles.
Variable ism : string -> string -> string -> list fmt * subtitles.
Variable ignore : bool.

Lemma walk_all_ok s display_id vd :
  (forall p, In p vd ->
   exists r, resolve_item url_or_none m3u8 f4m mpd ism ignore s display_id
               (media_reference_of p) = inr r) ->
  map e_id (fst (walk url_or_none m3u8 f4m mpd ism ignore s display_id vd)) =
    map media_reference_of vd /\
  snd (walk url_or_none m3u8 f4m mpd ism ignore s display_id vd) = None.
Proof.
  induction vd as [|p vd IH]; intros Hok; [split; reflexivity|].
  destruct (Hok p (or_introl eq_refl)) as [[fs subs] Hd].
  destruct IH as [IH1 IH2]; [intros q Hq; apply Hok; right; exact Hq|].
  cbn [walk]. rewrite Hd.
  destruct (walk url_or_none m3u8 f4m mpd ism ignore s display_id vd) as [es err].
  cbn in *. rewrite IH1, IH2. split; reflexivity.
Qed.

(** When every media reference of the page can be fetched and its data is
    not flagged [drm] (or [ignore_no_formats_error] is set), the generator
    yields one entry per item or paragraph that has a [mediaReference], in
    page order, with that reference as its id (never empty), and ends
    without an error. *)
Theorem entries_when_all_calls_succeed (s : vrt_site) (next_js_data : page_item)
    (display_id : string)
    (Hok : forall p, In p (video_data next_js_data) ->
           exists d, _call_api s (media_reference_of p) = inr d /\ (drm d = false \/ ignore = true)) :
  let r := _extract_video_entries url_or_none m3u8 f4m mpd ism ignore s next_js_data display_id in
  map e_id (fst r) = map media_reference_of (video_data next_js_data) /\
  Forall (fun id => id <> "") (map e_id (fst r)) /\
  snd r = None.
Proof.
  cbv zeta. unfold _extract_video_entries.
  assert (Hres : forall p, In p (video_data next_js_data) ->
    exists r, resolve_item url_or_none m3u8 f4m mpd ism ignore s display_id
                (media_reference_of p) = inr r).
  { intros p Hp. destruct (Hok p Hp) as [d [Hd Hdrm]].
    eexists. unfold resolve_item. rewrite Hd.
    apply (VRTProps.extract_passes url_or_none m3u8 f4m mpd ism ignore d display_id Hdrm). }
  destruct (walk_all_ok s display_id (video_data next_js_data) Hres) as [H1 H2].
  rewrite H1, H2. split; [reflexivity|]. split; [|reflexivity].
  apply Forall_forall. intros id Hin. apply in_map_iff in Hin as [p [Hp Hin]]. subst id.
  unfold video_data in Hin. apply filter_In in Hin as [_ Ht].
  unfold media_reference_of. destruct (mediaReference p) as [m|]; [|discriminate].
  cbn in Ht. intros E. subst m. discriminate.
Qed.

End Walk.

Lemma entries_when_all_calls_succeed_witness :
  map e_id (fst (_extract_video_entries Samples.url_or_none Samples.failed_fs Samples.failed_f4m
                   Samples.failed_fs Samples.failed_fs false Samples.radio1_ok_site
                   Samples.radio1_item "d")) = ["a"; "b"].
Proof.
  refine (eq_trans (proj1 (entries_when_all_calls_succeed Samples.url_or_none Samples.failed_fs
                             Samples.failed_f4m Samples.failed_fs Samples.failed_fs false
                             Samples.radio1_ok_site Samples.radio1_item "d" _)) _).
  - intros p _. exists (mk_api_data false [] []). split; [reflexivity | left; reflexivity].
  - reflexivity.
Defined.

End Radio1MoreProps.

Module VideoKenMoreProps.
Import VideoKen VideoKenMore.

Section Videos.

Variable netloc : option string -> string.
Variable slideslive : option string -> string -> string -> option string.

Lemma video_entry_spec url v r :
  video_entry netloc slideslive url v = Some r ->
  ur_url r <> "" /\ ur_id r <> "" /\ youtube_id v = Some (ur_id r).
Proof.
  unfold video_entry. destruct (youtube_id v) as [id|]; [|discriminate].
  destruct (String.eqb id "") eqn:Hid; [discriminate|].
  apply String.eqb_neq in Hid.
  destruct (if opt_is (v_type v) "youtube" then (Some id, Some "Youtube")
            else if String.eqb (netloc (embed_url v)) "slideslive.com"
            then (slideslive (embed_url v) id url, Some "SlidesLive")
            else (embed_url v, None)) as [[u|] k]; [|discriminate].
  destruct (String.eqb u "") eqn:Hu; [discriminate|].
  intros E. injection E as <-. apply String.eqb_neq in Hu. cbn. auto.
Qed.

(** [_extract_videos] keeps only videos with a non-empty id and a
    non-empty target URL: it yields at most one result per video, every
    result has a non-empty URL and id, and that id is the [youtube_id] of a
    video of the page; a video typed ["youtube"] with a non-empty id is
    always kept, as a [Youtube] result for that id. *)
Theorem extract_videos_results (page : category_page) (url : string) :
  let rs := _extract_videos netloc slideslive page url in
  length rs <= length (videos page) /\
  Forall (fun r => ur_url r <> "" /\ ur_id r <> "" /\
                   exists v, In v (videos page) /\ youtube_id v = Some (ur_id r)) rs /\
  (forall v id, In v (videos page) -> youtube_id v = Some id -> id <> "" ->
   opt_is (v_type v) "youtube" = true -> In (mk_url_result id (Some "Youtube") id) rs).
Proof.
  cbv zeta. unfold _extract_videos. split; [|split].
  - induction (videos page) as [|v vs IH]; [reflexivity|]. cbn [flat_map].
    rewrite length_app. cbn [length].
    destruct (video_entry netloc slideslive url v); cbn [length]; lia.
  - apply Forall_forall. intros r Hr. apply in_flat_map in Hr as [v [Hv Hr]].
    destruct (video_entry netloc slideslive url v) eqn:E; [|destruct Hr].
    destruct Hr as [<-|[]]. destruct (video_entry_spec url v u E) as [H1 [H2 H3]].
    eauto.
  - intros v id Hv Hid Hne Hy. apply in_flat_map. exists v. split; [exact Hv|].
    unfold video_entry. rewrite Hid. apply String.eqb_neq in Hne. rewrite Hne, Hy.
    rewrite Hne. left. reflexivity.
Qed.

End Videos.

Lemma lstrip_length_le chars s : String.length (lstrip chars s) <= String.length s.
Proof.
  induction s as [|a r IH]; cbn; [lia|].
  destruct (Py.contains a chars); cbn; lia.
Qed.

(** [str.lstrip('slideslive-')] strips a set of characters, not a prefix:
    on ["slideslive-" ++ n] it also strips the leading characters of [n]
    that belong to that set, and for a non-empty [n] it gives [n] back
    exactly when the first character of [n] is outside the set. *)
Theorem lstrip_slideslive_prefix (n : string) :
  lstrip "slideslive-" ("slideslive-" ++ n) = lstrip "slideslive-" n /\
  (forall a r, n = String a r ->
   (lstrip "slideslive-" ("slideslive-" ++ n) = n <-> Py.contains a "slideslive-" = false)).
Proof.
  split.
  - reflexivity.
  - intros a r ->. change (lstrip "slideslive-" ("slideslive-" ++ String a r))
      with (lstrip "slideslive-" (String a r)).
    cbn [lstrip]. split.
    + intros H. destruct (Py.contains a "slideslive-") eqn:Ha; [|reflexivity].
      exfalso. assert (L := lstrip_length_le "slideslive-" r).
      rewrite H in L. cbn in L. lia.
    + intros Ha. rewrite Ha. reflexivity.
Qed.



End VideoKenMoreProps.

Module VideoKenIEProps.
Import VideoKen VideoKenMore.

Definition videodetails_url : string :=
  "https://analytics.videoken.com/api/embedded/videodetails/".

(** [_get_org_id_and_api_key] fetches the organization details once and
    raises [KeyError] for a missing ['id'] or, with an id, a missing
    ['apikey']. *)
Theorem org_details_key_errors (answer : string -> org_details) (org : string)
    (tr : list request) :
  (od_id (answer org) = None ->
   _get_org_id_and_api_key answer org tr =
     (inl (KeyError "id"), (tr ++ [HttpGet (details_url org)])%list)) /\
  (forall i, od_id (answer org) = Some i -> od_apikey (answer org) = None ->
   _get_org_id_and_api_key answer org tr =
     (inl (KeyError "apikey"), (tr ++ [HttpGet (details_url org)])%list)).
Proof.
  unfold _get_org_id_and_api_key, lift_option. split.
  - intros H. cbn. rewrite H. reflexivity.
  - intros i H1 H2. cbn. rewrite H1. cbn. rewrite H2. reflexivity.
Qed.

Section IE.

Variable netloc : option string -> string.
Variable slideslive : option string -> string -> string -> option string.

(** Once the organization details are read, [VideoKenIE] fetches the video
    details once: a ["youtube"] type gives the YouTube result for the page's
    video id, a missing ['type'] raises [KeyError('type')], and another type
    without ['embed_url'] raises [KeyError('embed_url')]; in every case after
    exactly these two requests. *)
Theorem videoken_ie_paths (orgs : string -> org_details) (org : string)
    (details : string -> string -> video_details) (url video_id org_id key : string)
    (tr : list request)
    (Horg : od_id (orgs org) = Some org_id) (Hkey : od_apikey (orgs org) = Some key) :
  let run := videoken_real_extract netloc slideslive orgs org details url video_id tr in
  let reqs := ((tr ++ [HttpGet (details_url org)]) ++ [HttpGet videodetails_url])%list in
  (vd_type (details org_id video_id) = Some "youtube" ->
   run = (inr (mk_embed_result (Some video_id) (Some "Youtube") video_id), reqs)) /\
  (vd_type (details org_id video_id) = None -> run = (inl (KeyError "type"), reqs)) /\
  (forall t, vd_type (details org_id video_id) = Some t -> t <> "youtube" ->
   vd_embed_url (details org_id video_id) = None -> run = (inl (KeyError "embed_url"), reqs)).
Proof.
  cbv zeta. unfold videoken_real_extract, _get_org_id_and_api_key, lift_option.
  cbn. rewrite Horg. cbn. rewrite Hkey. cbn. split; [|split].
  - intros H. rewrite H. reflexivity.
  - intros H. rewrite H. reflexivity.
  - intros t H Ht He. rewrite H. cbn. apply String.eqb_neq in Ht. rewrite Ht, He. reflexivity.
Qed.

(** The topic walker, when every page up to [T] reports [T] pages and the
    fuel allows it, fetches exactly pages [1..T] and yields their items in
    page order. *)
Lemma topic_walk_from (pages : nat -> topic_page) (url : string) (T : nat) :
  (forall i, 1 <= i <= T -> total_no_of_pages (pages i) = Some (Z.of_nat T)) ->
  forall k page fuel, 1 <= page -> page + k = T -> k < fuel ->
  topic_entries_from netloc slideslive pages fuel page url =
    (flat_map (fun i => topic_items netloc slideslive (pages i) url) (seq page (S k)),
     seq page (S k)).
Proof.
  intros Hp. induction k as [|k IH]; intros page fuel H1 H2 H3;
    (destruct fuel as [|fuel]; [lia|]); cbn [topic_entries_from];
    rewrite (Hp page) by lia.
  - replace (Z.of_nat T =? 0)%Z with false by lia.
    replace (Z.of_nat page =? Z.of_nat T)%Z with true by lia.
    cbn. rewrite app_nil_r. reflexivity.
  - replace (Z.of_nat T =? 0)%Z with false by lia.
    replace (Z.of_nat page =? Z.of_nat T)%Z with false by lia.
    rewrite (IH (S page) fuel) by lia. reflexivity.
Qed.

Theorem topic_walk_fetches_all_pages (pages : nat -> topic_page) (url : string)
    (T fuel : nat)
    (HT : 1 <= T)
    (Hpages : forall i, 1 <= i <= T -> total_no_of_pages (pages i) = Some (Z.of_nat T))
    (Hfuel : T <= fuel) :
  topic_entries_from netloc slideslive pages fuel 1 url =
    (flat_map (fun i => topic_items netloc slideslive (pages i) url) (seq 1 T), seq 1 T).
Proof.
  destruct T as [|k]; [lia|].
  apply (topic_walk_from pages url (S k) Hpages k 1 fuel); lia.
Qed.

(** A page count that [int_or_none] reads as negative never equals a page
    number and is not falsy, so the topic walker keeps fetching the next
    page as long as it runs: with [fuel] steps it fetches [fuel] pages. *)
Theorem topic_walk_negative_total (pages : nat -> topic_page) (url : string)
    (Hneg : forall i, exists t, total_no_of_pages (pages i) = Some t /\ (t < 0)%Z) :
  forall fuel page, snd (topic_entries_from netloc slideslive pages fuel page url) = seq page fuel.
Proof.
  induction fuel as [|fuel IH]; intros page; [reflexivity|].
  cbn [topic_entries_from]. destruct (Hneg page) as [t [Ht Hlt]]. rewrite Ht.
  replace (t =? 0)%Z with false by (symmetry; apply Z.eqb_neq; lia).
  replace (Z.of_nat page =? t)%Z with false by (symmetry; apply Z.eqb_neq; lia).
  specialize (IH (S page)).
  destruct (topic_entries_from netloc slideslive pages fuel (S page) url) as [rest fetched].
  cbn in *. rewrite IH. reflexivity.
Qed.

End IE.

Lemma topic_walk_fetches_all_pages_witness :
  topic_entries_from Samples.no_netloc Samples.no_slideslive (Samples.topic_pages 3) 10 1 "u" =
    (flat_map (fun i => topic_items Samples.no_netloc Samples.no_slideslive
                          (Samples.topic_pages 3 i) "u") (seq 1 3), seq 1 3).
Proof.
  apply (topic_walk_fetches_all_pages Samples.no_netloc Samples.no_slideslive
           (Samples.topic_pages 3) "u" 3 10).
  - lia.
  - intros i _. reflexivity.
  - lia.
Defined.

Lemma topic_walk_negative_total_witness :
  snd (topic_entries_from Samples.no_netloc Samples.no_slideslive (Samples.topic_pages (-1))
         4 1 "u") = [1; 2; 3; 4].
Proof.
  apply (topic_walk_negative_total Samples.no_netloc Samples.no_slideslive
           (Samples.topic_pages (-1)) "u").
  intros i. exists (-1)%Z. split; [reflexivity | lia].
Defined.

Lemma videoken_ie_paths_witness :
  videoken_real_extract Samples.no_netloc Samples.no_slideslive Samples.icts_org "icts"
    Samples.youtube_details "https://videos.icts.res.in/watch/abc" "abc" [] =
    (inr (mk_embed_result (Some "abc") (Some "Youtube") "abc"),
     [HttpGet (details_url "icts"); HttpGet videodetails_url]).
Proof.
  apply (proj1 (videoken_ie_paths Samples.no_netloc Samples.no_slideslive Samples.icts_org "icts"
                  Samples.youtube_details "https://videos.icts.res.in/watch/abc" "abc" "o1" "k1" []
                  eq_refl eq_refl)).
  reflexivity.
Defined.

End VideoKenIEProps.

Module MojevideoMoreProps.
Import Mojevideo.

(** Whatever the page's id patterns match, the Mojevideo extractor fetches
    only the page and then fails: with [AttributeError] as soon as one of
    the three patterns does not match, and never with a result. *)
Theorem mojevideo_always_fails (url : string) (m : page_matches) (tr : list request) :
  snd (_real_extract url m tr) = (tr ++ [HttpGet url])%list /\
  (exists e, fst (_real_extract url m tr) = inl e) /\
  (vId_match m = None \/ vEx_match m = None \/ vHash_match m = None ->
   fst (_real_extract url m tr) = inl AttributeError).
Proof.
  destruct m as [[a|] [b|] [c|]]; cbn;
    (split; [reflexivity|]; split; [eexists; reflexivity|]);
    intros H; try reflexivity; intuition discriminate.
Qed.

End MojevideoMoreProps.

Module VRTMoreProps.
Import VRT.

(** Unless the data is flagged [drm] with [ignore_no_formats_error] unset
    (then the DRM error is raised), [_extract_formats_and_subtitles]
    returns formats built target by target: the formats for a
    concatenation of target lists are the concatenation of the formats
    built for each list, whatever the [drm] flag and listed subtitles the
    data of each part carries. *)
Theorem formats_compose_over_targets
    (url_or_none : string -> option string)
    (m3u8 : string -> string -> string -> list fmt * subtitles)
    (f4m : string -> string -> string -> list fmt)
    (mpd ism : string -> string -> string -> list fmt * subtitles)
    (ignore : bool)
    (drm1 drm2 : bool) (l1 l2 : list target) (subs1 subs2 : list subtitle_ref)
    (video_id : string) :
  (drm1 = false \/ ignore = true) ->
  exists ss,
    _extract_formats_and_subtitles url_or_none m3u8 f4m mpd ism ignore
      (mk_api_data drm1 (l1 ++ l2) subs1) video_id =
    inr ((fst (formats_and_subtitles url_or_none m3u8 f4m mpd ism
                 (mk_api_data drm2 l1 subs2) video_id) ++
          fst (formats_and_subtitles url_or_none m3u8 f4m mpd ism
                 (mk_api_data drm2 l2 subs2) video_id))%list, ss).
Proof.
  intros Hok.
  rewrite (VRTProps.extract_passes url_or_none m3u8 f4m mpd ism ignore
             (mk_api_data drm1 (l1 ++ l2) subs1) video_id Hok).
  assert (H := VRTProps.formats_flat_map url_or_none m3u8 f4m mpd ism
                 (mk_api_data drm1 (l1 ++ l2) subs1) video_id).
  destruct (formats_and_subtitles url_or_none m3u8 f4m mpd ism
              (mk_api_data drm1 (l1 ++ l2) subs1) video_id) as [fs ss].
  exists ss. cbn [fst] in H. rewrite H, !VRTProps.formats_flat_map. cbn [targetUrls].
  rewrite filter_app, flat_map_app. reflexivity.
Qed.

Lemma formats_compose_over_targets_witness :
  exists ss,
    _extract_formats_and_subtitles Samples.url_or_none Samples.failed_fs Samples.failed_f4m
      Samples.failed_fs Samples.failed_fs true
      (mk_api_data true ([] ++ [])%list []) "v" = inr (([] ++ [])%list, ss).
Proof.
  exact (formats_compose_over_targets Samples.url_or_none Samples.failed_fs Samples.failed_f4m
           Samples.failed_fs Samples.failed_fs true true false [] [] [] [] "v"
           (or_intror eq_refl)).
Defined.

End VRTMoreProps.
